(** * Kavout forecast dashboard: the view layer and its request handlers

    A shallow embedding of [frontend/src/api.js] and of the [App] component
    (state, derived view models, event handlers), with the properties the
    specification states about them.

    JavaScript numbers are IEEE binary64 values: they are modelled by Rocq's
    primitive floats, whose [-], [/], [*] and [=?] are the operations of the
    source ([===] on two numbers is IEEE equality).  [null] and [undefined]
    in an optional position are [None]. *)

From Stdlib Require Import Floats.
From stdpp Require Import base option list strings.

Local Open Scope string_scope.

(** ** Data exchanged with the forecasting service *)

Module Point.
(** One sample [{date, value}] of a price series. *)
Record t := mk { date : string; value : float }.
End Point.

Module TrainResult.
Record t := mk {
  ticker : string;
  source : string;
  val_loss : float;
  val_rmse : float;
  direction_accuracy : float
}.
End TrainResult.

Module ForecastResult.
Record t := mk {
  ticker : string;
  source : string;
  last_close : float;
  horizon : float;
  history : list Point.t;
  forecast : list Point.t
}.
End ForecastResult.

Module SymbolsResponse.
(** [symbols] is [None] when the field is missing from the body (or null). *)
Record t := mk { symbols : option (list string) }.
End SymbolsResponse.

Module HistoryResponse.
Record t := mk { history : option (list Point.t) }.
End HistoryResponse.

(** ** Derived view models *)

Module ChartPoint.
(** A chart sample: [history] and [forecast] are [null] on the series the
    sample does not belong to. *)
Record t := mk {
  date : string;
  history : option float;
  forecast : option float
}.
End ChartPoint.

Module TapeRow.
(** A row of the forecast tape. *)
Record t := mk {
  step : nat;
  date : string;
  value : float;
  delta : float;
  pct : float
}.
End TapeRow.

Definition historyPoint (point : Point.t) : ChartPoint.t :=
  {| ChartPoint.date := Point.date point;
     ChartPoint.history := Some (Point.value point);
     ChartPoint.forecast := None |}.

Definition forecastPoint (point : Point.t) : ChartPoint.t :=
  {| ChartPoint.date := Point.date point;
     ChartPoint.history := None;
     ChartPoint.forecast := Some (Point.value point) |}.

(** [chartData], a memo over [forecastResult] and [historyOnly]. *)
Definition chartData (forecastResult : option ForecastResult.t)
    (historyOnly : list Point.t) : list ChartPoint.t :=
  match forecastResult with
  | Some fr =>
      let history := map historyPoint (ForecastResult.history fr) in
      let forecast := map forecastPoint (ForecastResult.forecast fr) in
      (history ++ forecast)%list
  | None =>
      if Nat.ltb 0 (length historyOnly)
      then map historyPoint historyOnly
      else []
  end.

(** The callback of [forecastResult.forecast.map] in [forecastRows]. *)
Definition forecastRow (base : float) (index : nat) (point : Point.t) : TapeRow.t :=
  let delta := (Point.value point - base)%float in
  let pct :=
    if PrimFloat.eqb base 0%float then 0%float
    else (delta / base * 100)%float in
  {| TapeRow.step := index + 1;
     TapeRow.date := Point.date point;
     TapeRow.value := Point.value point;
     TapeRow.delta := delta;
     TapeRow.pct := pct |}.

(** [forecastRows], a memo over [forecastResult]. *)
Definition forecastRows (forecastResult : option ForecastResult.t) : list TapeRow.t :=
  match forecastResult with
  | None => []
  | Some fr =>
      let base := ForecastResult.last_close fr in
      imap (forecastRow base) (ForecastResult.forecast fr)
  end.

(** ** Form state *)

(** The value held by a numeric form field: the initial values and the
    horizon presets are numbers, a value typed into an [<input>] is the
    string [e.target.value]. *)
Inductive Field :=
| FNum (n : float)
| FStr (s : string).

Module TrainForm.
Record t := mk {
  ticker : string;
  period : string;
  input_len : Field;
  pred_len : Field;
  epochs : Field;
  batch_size : Field;
  learning_rate : Field;
  data_source : string;
  local_data_dir : string
}.
End TrainForm.

Module PredictForm.
Record t := mk {
  ticker : string;
  horizon : Field;
  history_points : Field;
  data_source : string;
  local_data_dir : string
}.
End PredictForm.

Definition sourceOptions : list string := ["local"; "auto"; "yfinance"].
Definition periodOptions : list string := ["1y"; "3y"; "5y"; "10y"].
Definition horizonPresets : list float := [5%float; 10%float; 15%float; 30%float].

Definition initialTrain : TrainForm.t :=
  {| TrainForm.ticker := "RELIANCE";
     TrainForm.period := "5y";
     TrainForm.input_len := FNum 60;
     TrainForm.pred_len := FNum 5;
     TrainForm.epochs := FNum 30;
     TrainForm.batch_size := FNum 32;
     TrainForm.learning_rate := FNum 0x1.0624dd2f1a9fcp-10 (* 0.001 *);
     TrainForm.data_source := "local";
     TrainForm.local_data_dir := "" |}.

Definition initialPredict : PredictForm.t :=
  {| PredictForm.ticker := "RELIANCE";
     PredictForm.horizon := FNum 10;
     PredictForm.history_points := FNum 90;
     PredictForm.data_source := "local";
     PredictForm.local_data_dir := "" |}.

(** ** Request payloads *)

Module TrainPayload.
(** [{...trainForm, input_len: Number(..), .., local_data_dir: .. || null}];
    [local_data_dir = None] is [null]. *)
Record t := mk {
  ticker : string;
  period : string;
  input_len : float;
  pred_len : float;
  epochs : float;
  batch_size : float;
  learning_rate : float;
  data_source : string;
  local_data_dir : option string
}.
End TrainPayload.

Module PredictPayload.
Record t := mk {
  ticker : string;
  horizon : float;
  history_points : float;
  data_source : string;
  local_data_dir : option string
}.
End PredictPayload.

Module SymbolsParams.
(** Query parameters of the symbols fetch; [local_data_dir = None] is
    [undefined]. *)
Record t := mk {
  data_source : string;
  local_data_dir : option string
}.
End SymbolsParams.

Module HistoryParams.
Record t := mk {
  ticker : string;
  history_points : float;
  data_source : string;
  local_data_dir : option string
}.
End HistoryParams.

(** ** HTTP requests and their outcomes *)

Inductive Method := GET | POST.

(** What a request carries: a JSON body ([api.post(url, payload)]) or query
    parameters ([api.get(url, { params })]). *)
Inductive Content :=
| TrainBody (payload : TrainPayload.t)
| PredictBody (payload : PredictPayload.t)
| SymbolsQuery (params : SymbolsParams.t)
| HistoryQuery (params : HistoryParams.t).

(** The shape in which the caller reads the response's [data]. *)
Inductive Shape := TrainShape | ForecastShape | SymbolsShape | HistoryShape.

Definition Data (R : Shape) : Type :=
  match R with
  | TrainShape => TrainResult.t
  | ForecastShape => ForecastResult.t
  | SymbolsShape => SymbolsResponse.t
  | HistoryShape => HistoryResponse.t
  end.

(** A request sent through the axios instance [api]; [url] is relative to
    the instance's [baseURL]. *)
Record Request := mkRequest {
  method : Method;
  url : string;
  content : Content;
  expect : Shape
}.

(** The value a rejected request throws.  [detail] is
    [err?.response?.data?.detail], the text the service sends with an error
    status: [None] when the error has no response, the response no body, or
    the body no [detail].  [message] is the error's own [message]. *)
Record Error := mkError {
  detail : option string;
  message : string
}.

(** ** Component state: one field per [useState] *)

Record State := mkState {
  trainForm : TrainForm.t;
  predictForm : PredictForm.t;
  symbols : list string;
  trainResult : option TrainResult.t;
  forecastResult : option ForecastResult.t;
  historyOnly : list Point.t;
  loadingTrain : bool;
  loadingPredict : bool;
  loadingHistory : bool;
  loadingSymbols : bool;
  error : string
}.

Definition initialState : State :=
  {| trainForm := initialTrain;
     predictForm := initialPredict;
     symbols := [];
     trainResult := None;
     forecastResult := None;
     historyOnly := [];
     loadingTrain := false;
     loadingPredict := false;
     loadingHistory := false;
     loadingSymbols := false;
     error := "" |}.

(** ** Asynchronous handlers

    The body of an async function: it returns, throws, calls a state setter
    (an update applied to the component state current at that moment), or
    awaits a request and resumes with its outcome. *)
Inductive Proc (A : Type) : Type :=
| Return (a : A)
| Throw (e : Error)
| SetState (u : State -> State) (k : Proc A)
| Await (r : Request) (k : Error + Data (expect r) -> Proc A).

Arguments Return {A} a.
Arguments Throw {A} e.
Arguments SetState {A} u k.
Arguments Await {A} r k.

Fixpoint bind {A B : Type} (p : Proc A) (f : A -> Proc B) : Proc B :=
  match p with
  | Return a => f a
  | Throw e => Throw e
  | SetState u k => SetState u (bind k f)
  | Await r k => Await r (fun o => bind (k o) f)
  end.

(** [try { p } catch (err) { h err }] *)
Fixpoint try_catch {A : Type} (p : Proc A) (h : Error -> Proc A) : Proc A :=
  match p with
  | Return a => Return a
  | Throw e => h e
  | SetState u k => SetState u (try_catch k h)
  | Await r k => Await r (fun o => try_catch (k o) h)
  end.

(** [try { p } finally { f }] *)
Fixpoint try_finally {A : Type} (p : Proc A) (f : Proc unit) : Proc A :=
  match p with
  | Return a => bind f (fun _ => Return a)
  | Throw e => bind f (fun _ => Throw e)
  | SetState u k => SetState u (try_finally k f)
  | Await r k => Await r (fun o => try_finally (k o) f)
  end.

Declare Scope proc_scope.
Delimit Scope proc_scope with proc.
Bind Scope proc_scope with Proc.
Notation "x <- p ;; q" := (bind p (fun x => q))
  (at level 100, p at next level, right associativity) : proc_scope.
Notation "p ;; q" := (bind p (fun _ => q))
  (at level 100, right associativity) : proc_scope.

(** [await] of a request: a rejection is thrown at the await. *)
Definition await (r : Request) : Proc (Data (expect r)) :=
  Await r (fun o => match o with inl e => Throw e | inr d => Return d end).

(** A state setter called for its effect. *)
Definition set (u : State -> State) : Proc unit := SetState u (Return tt).

(** ** The API client, [api.js] *)

Definition api_post (url : string) (payload : Content) (R : Shape) : Proc (Data R) :=
  await {| method := POST; url := url; content := payload; expect := R |}.

Definition api_get (url : string) (params : Content) (R : Shape) : Proc (Data R) :=
  await {| method := GET; url := url; content := params; expect := R |}.

Definition trainModel (payload : TrainPayload.t) : Proc TrainResult.t :=
  (data <- api_post "/api/train" (TrainBody payload) TrainShape ;;
   Return data)%proc.

Definition predictStock (payload : PredictPayload.t) : Proc ForecastResult.t :=
  (data <- api_post "/api/predict" (PredictBody payload) ForecastShape ;;
   Return data)%proc.

Definition getSymbols (params : SymbolsParams.t) : Proc SymbolsResponse.t :=
  (data <- api_get "/api/symbols" (SymbolsQuery params) SymbolsShape ;;
   Return data)%proc.

Definition getHistory (params : HistoryParams.t) : Proc HistoryResponse.t :=
  (data <- api_get "/api/history" (HistoryQuery params) HistoryShape ;;
   Return data)%proc.

(** ** JavaScript's [||] on strings: the empty string is falsy *)

Definition truthy (s : string) : bool := negb (String.eqb s "").

(** [s || null] and [s || undefined] *)
Definition or_none (s : string) : option string :=
  if truthy s then Some s else None.

(** [a || b] where [a] is a string or undefined *)
Definition or_else (a : option string) (b : string) : string :=
  match a with
  | Some s => if truthy s then s else b
  | None => b
  end.

(** [err?.response?.data?.detail || err.message || fallback] *)
Definition errorText (err : Error) (fallback : string) : string :=
  or_else (Some (or_else (detail err) (message err))) fallback.

(** ** State setters *)

Definition setTrainForm (f : TrainForm.t -> TrainForm.t) : Proc unit :=
  set (fun s => mkState (f (trainForm s)) (predictForm s) (symbols s)
    (trainResult s) (forecastResult s) (historyOnly s) (loadingTrain s)
    (loadingPredict s) (loadingHistory s) (loadingSymbols s) (error s)).

Definition setPredictForm (f : PredictForm.t -> PredictForm.t) : Proc unit :=
  set (fun s => mkState (trainForm s) (f (predictForm s)) (symbols s)
    (trainResult s) (forecastResult s) (historyOnly s) (loadingTrain s)
    (loadingPredict s) (loadingHistory s) (loadingSymbols s) (error s)).

Definition setSymbols (v : list string) : Proc unit :=
  set (fun s => mkState (trainForm s) (predictForm s) v
    (trainResult s) (forecastResult s) (historyOnly s) (loadingTrain s)
    (loadingPredict s) (loadingHistory s) (loadingSymbols s) (error s)).

Definition setTrainResult (v : option TrainResult.t) : Proc unit :=
  set (fun s => mkState (trainForm s) (predictForm s) (symbols s)
    v (forecastResult s) (historyOnly s) (loadingTrain s)
    (loadingPredict s) (loadingHistory s) (loadingSymbols s) (error s)).

Definition setForecastResult (v : option ForecastResult.t) : Proc unit :=
  set (fun s => mkState (trainForm s) (predictForm s) (symbols s)
    (trainResult s) v (historyOnly s) (loadingTrain s)
    (loadingPredict s) (loadingHistory s) (loadingSymbols s) (error s)).

Definition setHistoryOnly (v : list Point.t) : Proc unit :=
  set (fun s => mkState (trainForm s) (predictForm s) (symbols s)
    (trainResult s) (forecastResult s) v (loadingTrain s)
    (loadingPredict s) (loadingHistory s) (loadingSymbols s) (error s)).

Definition setLoadingTrain (v : bool) : Proc unit :=
  set (fun s => mkState (trainForm s) (predictForm s) (symbols s)
    (trainResult s) (forecastResult s) (historyOnly s) v
    (loadingPredict s) (loadingHistory s) (loadingSymbols s) (error s)).

Definition setLoadingPredict (v : bool) : Proc unit :=
  set (fun s => mkState (trainForm s) (predictForm s) (symbols s)
    (trainResult s) (forecastResult s) (historyOnly s) (loadingTrain s)
    v (loadingHistory s) (loadingSymbols s) (error s)).

Definition setLoadingHistory (v : bool) : Proc unit :=
  set (fun s => mkState (trainForm s) (predictForm s) (symbols s)
    (trainResult s) (forecastResult s) (historyOnly s) (loadingTrain s)
    (loadingPredict s) v (loadingSymbols s) (error s)).

Definition setLoadingSymbols (v : bool) : Proc unit :=
  set (fun s => mkState (trainForm s) (predictForm s) (symbols s)
    (trainResult s) (forecastResult s) (historyOnly s) (loadingTrain s)
    (loadingPredict s) (loadingHistory s) v (error s)).

Definition setError (v : string) : Proc unit :=
  set (fun s => mkState (trainForm s) (predictForm s) (symbols s)
    (trainResult s) (forecastResult s) (historyOnly s) (loadingTrain s)
    (loadingPredict s) (loadingHistory s) (loadingSymbols s) v).

(** ** Running a handler *)

(** The service as the client sees it: every request is answered by a
    rejection or by a body of the shape the caller reads. *)
Definition Server : Type := forall r : Request, Error + Data (expect r).

Module Run.
(** A handler run to completion: the requests it sent, in order, the
    state it left and what it returned or threw. *)
Record t (A : Type) := mk {
  requests : list Request;
  final : State;
  result : Error + A
}.
Arguments mk {A} _ _ _.
Arguments requests {A} _.
Arguments final {A} _.
Arguments result {A} _.
End Run.

Fixpoint run {A : Type} (srv : Server) (p : Proc A) (s : State) : Run.t A :=
  match p with
  | Return a => Run.mk [] s (inr a)
  | Throw e => Run.mk [] s (inl e)
  | SetState u k => run srv k (u s)
  | Await r k =>
      let rest := run srv (k (srv r)) s in
      Run.mk (r :: Run.requests rest) (Run.final rest) (Run.result rest)
  end.

(** ** The page as a transition system

    JavaScript runs one callback at a time: a handler runs until its next
    [await], and a response resumes it later, after any number of other
    callbacks. *)

(** A request in flight and the rest of the handler that awaits it. *)
Record InFlight := mkInFlight {
  request : Request;
  resume : Error + Data (expect request) -> Proc unit
}.

Record Config := mkConfig {
  ui : State;
  inflight : list InFlight
}.

(** Run [p] up to its next [await] (or to its end). *)
Fixpoint launch (p : Proc unit) (s : State) (pending : list InFlight) : Config :=
  match p with
  | Return _ => mkConfig s pending
  | Throw _ => mkConfig s pending
  | SetState u k => launch k (u s) pending
  | Await r k => mkConfig s (pending ++ [mkInFlight r k])%list
  end.

(** ** Values derived at each render *)

(** [forecastResult?.forecast?.[0]?.date || null] *)
Definition forecastStartDate (forecastResult : option ForecastResult.t)
    : option string :=
  match forecastResult with
  | Some fr =>
      match ForecastResult.forecast fr !! 0 with
      | Some point => or_none (Point.date point)
      | None => None
      end
  | None => None
  end.

(** [forecastResult?.forecast?.at(-1)?.value] *)
Definition forecastEnd (forecastResult : option ForecastResult.t) : option float :=
  match forecastResult with
  | Some fr => Point.value <$> last (ForecastResult.forecast fr)
  | None => None
  end.

(** [forecastResult?.last_close] *)
Definition lastClose (forecastResult : option ForecastResult.t) : option float :=
  ForecastResult.last_close <$> forecastResult.

(** [projectedChangePct]: [None] is [null]. *)
Definition projectedChangePct (forecastResult : option ForecastResult.t)
    : option float :=
  match forecastEnd forecastResult, lastClose forecastResult with
  | Some forecastEnd, Some lastClose =>
      if negb (PrimFloat.eqb lastClose 0%float)
      then Some ((forecastEnd - lastClose) / lastClose * 100)%float
      else None
  | _, _ => None
  end.

(** The shaded [ReferenceArea] of the chart, drawn when [forecastStartDate]
    is truthy: its bounds [x1 = forecastStartDate] and
    [x2 = chartData.at(-1)?.date]. *)
Definition referenceArea (forecastResult : option ForecastResult.t)
    (historyOnly : list Point.t) : option (string * option string) :=
  match forecastStartDate forecastResult with
  | Some x1 =>
      Some (x1, ChartPoint.date <$> last (chartData forecastResult historyOnly))
  | None => None
  end.

(** ** Sample data, used to exercise the statements below *)

Definition sampleError : Error :=
  {| detail := Some "Ticker not found";
     message := "Request failed with status code 404" |}.

Definition sampleTrainResult : TrainResult.t :=
  {| TrainResult.ticker := "RELIANCE";
     TrainResult.source := "local";
     TrainResult.val_loss := 0.5;
     TrainResult.val_rmse := 12.5;
     TrainResult.direction_accuracy := 0.75 |}.

Definition sampleHistory : list Point.t :=
  [Point.mk "2024-01-01" 98; Point.mk "2024-01-02" 100].

Definition sampleForecast : ForecastResult.t :=
  {| ForecastResult.ticker := "RELIANCE";
     ForecastResult.source := "local";
     ForecastResult.last_close := 100;
     ForecastResult.horizon := 2;
     ForecastResult.history := sampleHistory;
     ForecastResult.forecast :=
       [Point.mk "2024-01-03" 110; Point.mk "2024-01-04" 99] |}.

(** A forecast over a series whose last close is zero. *)
Definition flatForecast : ForecastResult.t :=
  {| ForecastResult.ticker := "NEWCO";
     ForecastResult.source := "local";
     ForecastResult.last_close := 0;
     ForecastResult.horizon := 1;
     ForecastResult.history := [Point.mk "2024-01-02" 0];
     ForecastResult.forecast := [Point.mk "2024-01-03" 4] |}.

(** A service that rejects every request with [err]. *)
Definition rejecting (err : Error) : Server := fun _ => inl err.

(** A service that answers every request; [symbols] and [history] are the
    fields of the symbols and history bodies. *)
Definition answering (symbols : option (list string))
    (history : option (list Point.t)) : Server :=
  fun r =>
    match expect r as R return Error + Data R with
    | TrainShape => inr sampleTrainResult
    | ForecastShape => inr sampleForecast
    | SymbolsShape => inr (SymbolsResponse.mk symbols)
    | HistoryShape => inr (HistoryResponse.mk history)
    end.

(** A train form after the data directory and the epochs were typed in,
    and a predict form after its data directory was. *)
Definition typedTrain : TrainForm.t :=
  {| TrainForm.ticker := "TCS";
     TrainForm.period := "3y";
     TrainForm.input_len := FNum 60;
     TrainForm.pred_len := FNum 5;
     TrainForm.epochs := FStr "50";
     TrainForm.batch_size := FNum 32;
     TrainForm.learning_rate := FNum 0x1.0624dd2f1a9fcp-10 (* 0.001 *);
     TrainForm.data_source := "auto";
     TrainForm.local_data_dir := "backend/data" |}.

Definition typedPredict : PredictForm.t :=
  {| PredictForm.ticker := "TCS";
     PredictForm.horizon := FNum 15;
     PredictForm.history_points := FStr "120";
     PredictForm.data_source := "auto";
     PredictForm.local_data_dir := "backend/data" |}.

(** [Number] on the strings the sample forms hold. *)
Definition sampleStringToNumber (s : string) : float :=
  if String.eqb s "50" then 50%float
  else if String.eqb s "120" then 120%float
  else PrimFloat.nan.

(** [toUpperCase] on strings that are in upper case already. *)
Definition sampleToUpperCase (s : string) : string := s.

Section App.

(** Two built-ins of the JavaScript runtime, taken as given: the conversion
    of a string to a number ([Number] applied to a string) and
    [String.prototype.toUpperCase]. *)
Variable StringToNumber : string -> float.
Variable toUpperCase : string -> string.

(** [Number(v)] for a form field: a number is returned as it is. *)
Definition Number (v : Field) : float :=
  match v with
  | FNum n => n
  | FStr s => StringToNumber s
  end.

(** ** Event handlers of [App]

    A handler is a closure over the values of the render it was created in:
    the forms it reads are its arguments. *)

Definition loadSymbols (dataSource localDataDir : string) : Proc unit :=
  if String.eqb dataSource "yfinance" then
    setSymbols []
  else
    (setLoadingSymbols true ;;
     try_finally
       (try_catch
          (data <- getSymbols
                     {| SymbolsParams.data_source := dataSource;
                        SymbolsParams.local_data_dir := or_none localDataDir |} ;;
           setSymbols (default [] (SymbolsResponse.symbols data)))
          (fun _ => setSymbols []))
       (setLoadingSymbols false))%proc.

Definition applySymbol (symbol : string) : Proc unit :=
  (setTrainForm (fun prev =>
     TrainForm.mk symbol (TrainForm.period prev) (TrainForm.input_len prev)
       (TrainForm.pred_len prev) (TrainForm.epochs prev)
       (TrainForm.batch_size prev) (TrainForm.learning_rate prev)
       (TrainForm.data_source prev) (TrainForm.local_data_dir prev)) ;;
   setPredictForm (fun prev =>
     PredictForm.mk symbol (PredictForm.horizon prev)
       (PredictForm.history_points prev) (PredictForm.data_source prev)
       (PredictForm.local_data_dir prev)))%proc.

Definition trainPayload (trainForm : TrainForm.t) : TrainPayload.t :=
  {| TrainPayload.ticker := TrainForm.ticker trainForm;
     TrainPayload.period := TrainForm.period trainForm;
     TrainPayload.input_len := Number (TrainForm.input_len trainForm);
     TrainPayload.pred_len := Number (TrainForm.pred_len trainForm);
     TrainPayload.epochs := Number (TrainForm.epochs trainForm);
     TrainPayload.batch_size := Number (TrainForm.batch_size trainForm);
     TrainPayload.learning_rate := Number (TrainForm.learning_rate trainForm);
     TrainPayload.data_source := TrainForm.data_source trainForm;
     TrainPayload.local_data_dir := or_none (TrainForm.local_data_dir trainForm) |}.

Definition onTrainSubmit (trainForm : TrainForm.t) : Proc unit :=
  (setError "" ;;
   setLoadingTrain true ;;
   try_finally
     (try_catch
        (let payload := trainPayload trainForm in
         data <- trainModel payload ;;
         setTrainResult (Some data) ;;
         setPredictForm (fun prev =>
           {| PredictForm.ticker := TrainForm.ticker trainForm;
              PredictForm.horizon := PredictForm.horizon prev;
              PredictForm.history_points := PredictForm.history_points prev;
              PredictForm.data_source := TrainForm.data_source trainForm;
              PredictForm.local_data_dir := TrainForm.local_data_dir trainForm |}))
        (fun err => setError (errorText err "Training failed")))
     (setLoadingTrain false))%proc.

Definition predictPayload (predictForm : PredictForm.t) : PredictPayload.t :=
  {| PredictPayload.ticker := PredictForm.ticker predictForm;
     PredictPayload.horizon := Number (PredictForm.horizon predictForm);
     PredictPayload.history_points := Number (PredictForm.history_points predictForm);
     PredictPayload.data_source := PredictForm.data_source predictForm;
     PredictPayload.local_data_dir := or_none (PredictForm.local_data_dir predictForm) |}.

Definition onPredictSubmit (predictForm : PredictForm.t) : Proc unit :=
  (setError "" ;;
   setLoadingPredict true ;;
   try_finally
     (try_catch
        (let payload := predictPayload predictForm in
         data <- predictStock payload ;;
         setForecastResult (Some data) ;;
         setHistoryOnly [])
        (fun err => setError (errorText err "Prediction failed")))
     (setLoadingPredict false))%proc.

Definition onLoadHistory (predictForm : PredictForm.t) : Proc unit :=
  (setError "" ;;
   setLoadingHistory true ;;
   try_finally
     (try_catch
        (data <- getHistory
                   {| HistoryParams.ticker := PredictForm.ticker predictForm;
                      HistoryParams.history_points :=
                        Number (PredictForm.history_points predictForm);
                      HistoryParams.data_source := PredictForm.data_source predictForm;
                      HistoryParams.local_data_dir :=
                        or_none (PredictForm.local_data_dir predictForm) |} ;;
         setHistoryOnly (default [] (HistoryResponse.history data)) ;;
         setForecastResult None)
        (fun err => setError (errorText err "History fetch failed")))
     (setLoadingHistory false))%proc.

(** ** Form edits: the [onChange] and preset [onClick] callbacks *)

Inductive TrainEdit :=
| TrainTicker (v : string)
| TrainDataSource (v : string)
| TrainPeriod (v : string)
| TrainLocalDataDir (v : string)
| TrainInputLen (v : string)
| TrainPredLen (v : string)
| TrainEpochs (v : string)
| TrainBatchSize (v : string)
| TrainLearningRate (v : string).

Definition editTrain (e : TrainEdit) (s : TrainForm.t) : TrainForm.t :=
  let '(TrainForm.mk tk pe il pl ep bs lr ds ld) := s in
  match e with
  | TrainTicker v => TrainForm.mk (toUpperCase v) pe il pl ep bs lr ds ld
  | TrainDataSource v => TrainForm.mk tk pe il pl ep bs lr v ld
  | TrainPeriod v => TrainForm.mk tk v il pl ep bs lr ds ld
  | TrainLocalDataDir v => TrainForm.mk tk pe il pl ep bs lr ds v
  | TrainInputLen v => TrainForm.mk tk pe (FStr v) pl ep bs lr ds ld
  | TrainPredLen v => TrainForm.mk tk pe il (FStr v) ep bs lr ds ld
  | TrainEpochs v => TrainForm.mk tk pe il pl (FStr v) bs lr ds ld
  | TrainBatchSize v => TrainForm.mk tk pe il pl ep (FStr v) lr ds ld
  | TrainLearningRate v => TrainForm.mk tk pe il pl ep bs (FStr v) ds ld
  end.

Inductive PredictEdit :=
| PredictTicker (v : string)
| PredictDataSource (v : string)
| PredictHorizon (v : string)
| PredictHistoryPoints (v : string)
| PredictLocalDataDir (v : string)
| PredictPreset (preset : float).

Definition editPredict (e : PredictEdit) (s : PredictForm.t) : PredictForm.t :=
  let '(PredictForm.mk tk hz hp ds ld) := s in
  match e with
  | PredictTicker v => PredictForm.mk (toUpperCase v) hz hp ds ld
  | PredictDataSource v => PredictForm.mk tk hz hp v ld
  | PredictHorizon v => PredictForm.mk tk (FStr v) hp ds ld
  | PredictHistoryPoints v => PredictForm.mk tk hz (FStr v) ds ld
  | PredictLocalDataDir v => PredictForm.mk tk hz hp ds v
  | PredictPreset preset => PredictForm.mk tk (FNum preset) hp ds ld
  end.

(** The dependencies of the symbols effect,
    [[trainForm.data_source, trainForm.local_data_dir]]. *)
Definition depsChanged (old new : TrainForm.t) : bool :=
  negb (String.eqb (TrainForm.data_source old) (TrainForm.data_source new)
        && String.eqb (TrainForm.local_data_dir old) (TrainForm.local_data_dir new)).

Definition symbolsEffect (trainForm : TrainForm.t) : Proc unit :=
  loadSymbols (TrainForm.data_source trainForm) (TrainForm.local_data_dir trainForm).

(** The first render followed by the symbols effect. *)
Definition mount : Config := launch (symbolsEffect initialTrain) initialState [].

(** A change of the train form, followed by the symbols effect when one of
    its dependencies changed. *)
Definition changeTrainForm (e : TrainEdit) (c : Config) : Config :=
  let old := trainForm (ui c) in
  let new := editTrain e old in
  let c' := launch (setTrainForm (editTrain e)) (ui c) (inflight c) in
  if depsChanged old new
  then launch (symbolsEffect new) (ui c') (inflight c')
  else c'.

(** One callback.  An event handler is the closure of the latest render,
    so it reads the forms of the current state; the continuation of an
    earlier handler keeps the forms it was started with.  A disabled button
    only removes transitions, so the [disabled] attributes are not
    modelled: every property of the reachable configurations below also
    holds of the page. *)
Inductive step : Config -> Config -> Prop :=
| step_editTrain e c :
    step c (changeTrainForm e c)
| step_editPredict e c :
    (forall preset, e = PredictPreset preset -> preset ∈ horizonPresets) ->
    step c (launch (setPredictForm (editPredict e)) (ui c) (inflight c))
| step_applySymbol symbol c :
    symbol ∈ take 16 (symbols (ui c)) ->
    step c (launch (applySymbol symbol) (ui c) (inflight c))
| step_trainSubmit c :
    step c (launch (onTrainSubmit (trainForm (ui c))) (ui c) (inflight c))
| step_predictSubmit c :
    step c (launch (onPredictSubmit (predictForm (ui c))) (ui c) (inflight c))
| step_loadHistory c :
    step c (launch (onLoadHistory (predictForm (ui c))) (ui c) (inflight c))
| step_response c (before : list InFlight) f after o :
    inflight c = (before ++ f :: after)%list ->
    step c (launch (resume f o) (ui c) (before ++ after)%list).

(** The configurations the page can be in. *)
Inductive reachable : Config -> Prop :=
| reachable_mount : reachable mount
| reachable_step c c' : reachable c -> step c c' -> reachable c'.

(** The requests a handler leaves in flight when it is started. *)
Definition pendingOf (p : Proc unit) : list InFlight :=
  inflight (launch p initialState []).

(** The handlers of the page that send requests. *)
Inductive handler : Proc unit -> Prop :=
| handler_train tf : handler (onTrainSubmit tf)
| handler_predict pf : handler (onPredictSubmit pf)
| handler_history pf : handler (onLoadHistory pf)
| handler_symbols ds ld : handler (loadSymbols ds ld).

(** An entry of the in-flight list that one of the handlers put there. *)
Definition known (f : InFlight) : Prop :=
  exists p : Proc unit, handler p /\ f ∈ pendingOf p.

(** The request a client function sends first. *)
Definition requestOf {A : Type} (p : Proc A) : option Request :=
  match p with
  | Await r _ => Some r
  | _ => None
  end.

(** A request sent by one of the four functions of [api.js]. *)
Definition viaClient (r : Request) : Prop :=
  (exists payload, requestOf (trainModel payload) = Some r) \/
  (exists payload, requestOf (predictStock payload) = Some r) \/
  (exists params, requestOf (getSymbols params) = Some r) \/
  (exists params, requestOf (getHistory params) = Some r).

(** A handler part that runs to its end without awaiting anything. *)
Fixpoint synchronous (p : Proc unit) : Prop :=
  match p with
  | Return _ | Throw _ => True
  | SetState _ k => synchronous k
  | Await _ _ => False
  end.

(** Method and path of a request. *)
Definition endpoint (r : Request) : Method * string := (method r, url r).

Definition endpoints : list (Method * string) :=
  [(POST, "/api/train"); (POST, "/api/predict");
   (GET, "/api/symbols"); (GET, "/api/history")].


(** The requests the handlers send, as [trainModel], [predictStock],
    [getHistory] and [getSymbols] build them from the handlers' arguments. *)
Definition trainRequest (trainForm : TrainForm.t) : Request :=
  {| method := POST; url := "/api/train";
     content := TrainBody (trainPayload trainForm); expect := TrainShape |}.

Definition predictRequest (predictForm : PredictForm.t) : Request :=
  {| method := POST; url := "/api/predict";
     content := PredictBody (predictPayload predictForm); expect := ForecastShape |}.

Definition historyRequest (predictForm : PredictForm.t) : Request :=
  {| method := GET; url := "/api/history";
     content := HistoryQuery
       {| HistoryParams.ticker := PredictForm.ticker predictForm;
          HistoryParams.history_points :=
            Number (PredictForm.history_points predictForm);
          HistoryParams.data_source := PredictForm.data_source predictForm;
          HistoryParams.local_data_dir :=
            or_none (PredictForm.local_data_dir predictForm) |};
     expect := HistoryShape |}.

Definition symbolsRequest (dataSource localDataDir : string) : Request :=
  {| method := GET; url := "/api/symbols";
     content := SymbolsQuery
       {| SymbolsParams.data_source := dataSource;
          SymbolsParams.local_data_dir := or_none localDataDir |};
     expect := SymbolsShape |}.

(** The class of a preset button: active when
    [Number(predictForm.horizon) === preset]. *)
Definition presetActive (predictForm : PredictForm.t) (preset : float) : bool :=
  PrimFloat.eqb (Number (PredictForm.horizon predictForm)) preset.

(** A request to endpoint [e] is in flight. *)
Definition awaiting (e : Method * string) (c : Config) : Prop :=
  exists (i : nat) (f : InFlight),
    inflight c !! i = Some f /\ endpoint (request f) = e.

(** * Properties *)

(** ** View models *)

Lemma forecastRows_lookup fr (i : nat) :
  forecastRows (Some fr) !! i =
  forecastRow (ForecastResult.last_close fr) i <$> ForecastResult.forecast fr !! i.
Proof. unfold forecastRows. apply list_lookup_imap. Qed.

(** C4: the forecast tape has one row per forecast point, in order; the
    row of the point at index [i] (the [i+1]-th) has step [i+1], the point's
    date and value, delta = value - last_close, and pct = delta / last_close
    * 100 unless last_close is zero, where pct = 0; without a forecast result
    the tape is empty. *)
Theorem forecastRows_spec :
  forecastRows None = [] /\
  forall fr : ForecastResult.t,
    length (forecastRows (Some fr)) = length (ForecastResult.forecast fr) /\
    forall (i : nat) (point : Point.t),
      ForecastResult.forecast fr !! i = Some point ->
      exists row : TapeRow.t,
        forecastRows (Some fr) !! i = Some row /\
        TapeRow.step row = i + 1 /\
        TapeRow.date row = Point.date point /\
        TapeRow.value row = Point.value point /\
        TapeRow.delta row = (Point.value point - ForecastResult.last_close fr)%float /\
        (PrimFloat.eqb (ForecastResult.last_close fr) 0 = false ->
         TapeRow.pct row = (TapeRow.delta row / ForecastResult.last_close fr * 100)%float) /\
        (PrimFloat.eqb (ForecastResult.last_close fr) 0 = true ->
         TapeRow.pct row = 0%float).
Proof.
  split; [reflexivity|].
  intros fr. split.
  - unfold forecastRows. apply length_imap.
  - intros i point Hi.
    exists (forecastRow (ForecastResult.last_close fr) i point).
    rewrite forecastRows_lookup, Hi. cbn.
    repeat split; intros ->; reflexivity.
Qed.

(** C5: with a forecast result the chart series is the history points
    followed by the forecast points, each on its own line of the chart;
    without one it is the non-empty history-only series, and otherwise it
    is empty. *)
Theorem chartData_spec :
  (forall (fr : ForecastResult.t) (historyOnly : list Point.t),
     chartData (Some fr) historyOnly =
       (map (fun p => ChartPoint.mk (Point.date p) (Some (Point.value p)) None)
            (ForecastResult.history fr) ++
        map (fun p => ChartPoint.mk (Point.date p) None (Some (Point.value p)))
            (ForecastResult.forecast fr))%list /\
     length (chartData (Some fr) historyOnly) =
       length (ForecastResult.history fr) + length (ForecastResult.forecast fr)) /\
  (forall historyOnly : list Point.t,
     historyOnly <> [] ->
     chartData None historyOnly =
       map (fun p => ChartPoint.mk (Point.date p) (Some (Point.value p)) None)
           historyOnly) /\
  chartData None [] = [].
Proof.
  split; [|split].
  - intros fr ho. split; [reflexivity|].
    cbn. rewrite length_app, !length_map. reflexivity.
  - intros [|p ho] Hne; [congruence|reflexivity].
  - reflexivity.
Qed.

(** ** What each handler does, run to completion *)

Lemma run_onTrainSubmit (srv : Server) (tf : TrainForm.t) (s : State) :
  run srv (onTrainSubmit tf) s =
  Run.mk [trainRequest tf]
    (match srv (trainRequest tf) with
     | inr data =>
         mkState (trainForm s)
           (PredictForm.mk (TrainForm.ticker tf)
              (PredictForm.horizon (predictForm s))
              (PredictForm.history_points (predictForm s))
              (TrainForm.data_source tf) (TrainForm.local_data_dir tf))
           (symbols s) (Some data) (forecastResult s) (historyOnly s)
           false (loadingPredict s) (loadingHistory s) (loadingSymbols s) ""
     | inl err =>
         mkState (trainForm s) (predictForm s) (symbols s) (trainResult s)
           (forecastResult s) (historyOnly s)
           false (loadingPredict s) (loadingHistory s) (loadingSymbols s)
           (errorText err "Training failed")
     end)
    (inr tt).
Proof. unfold trainRequest. cbn. destruct (srv _); reflexivity. Qed.

Lemma run_onPredictSubmit (srv : Server) (pf : PredictForm.t) (s : State) :
  run srv (onPredictSubmit pf) s =
  Run.mk [predictRequest pf]
    (match srv (predictRequest pf) with
     | inr data =>
         mkState (trainForm s) (predictForm s) (symbols s) (trainResult s)
           (Some data) []
           (loadingTrain s) false (loadingHistory s) (loadingSymbols s) ""
     | inl err =>
         mkState (trainForm s) (predictForm s) (symbols s) (trainResult s)
           (forecastResult s) (historyOnly s)
           (loadingTrain s) false (loadingHistory s) (loadingSymbols s)
           (errorText err "Prediction failed")
     end)
    (inr tt).
Proof. unfold predictRequest. cbn. destruct (srv _); reflexivity. Qed.

Lemma run_onLoadHistory (srv : Server) (pf : PredictForm.t) (s : State) :
  run srv (onLoadHistory pf) s =
  Run.mk [historyRequest pf]
    (match srv (historyRequest pf) with
     | inr data =>
         mkState (trainForm s) (predictForm s) (symbols s) (trainResult s)
           None (default [] (HistoryResponse.history data))
           (loadingTrain s) (loadingPredict s) false (loadingSymbols s) ""
     | inl err =>
         mkState (trainForm s) (predictForm s) (symbols s) (trainResult s)
           (forecastResult s) (historyOnly s)
           (loadingTrain s) (loadingPredict s) false (loadingSymbols s)
           (errorText err "History fetch failed")
     end)
    (inr tt).
Proof. unfold historyRequest. cbn. destruct (srv _); reflexivity. Qed.

Lemma run_loadSymbols_yfinance (srv : Server) (ld : string) (s : State) :
  run srv (loadSymbols "yfinance" ld) s =
  Run.mk []
    (mkState (trainForm s) (predictForm s) [] (trainResult s)
       (forecastResult s) (historyOnly s) (loadingTrain s) (loadingPredict s)
       (loadingHistory s) (loadingSymbols s) (error s))
    (inr tt).
Proof. reflexivity. Qed.

Lemma run_loadSymbols_fetch (srv : Server) (ds ld : string) (s : State) :
  ds <> "yfinance" ->
  run srv (loadSymbols ds ld) s =
  Run.mk [symbolsRequest ds ld]
    (mkState (trainForm s) (predictForm s)
       (match srv (symbolsRequest ds ld) with
        | inr data => default [] (SymbolsResponse.symbols data)
        | inl _ => []
        end)
       (trainResult s) (forecastResult s) (historyOnly s) (loadingTrain s)
       (loadingPredict s) (loadingHistory s) false (error s))
    (inr tt).
Proof.
  intros Hds. unfold loadSymbols, symbolsRequest.
  destruct (String.eqb_spec ds "yfinance") as [->|_]; [congruence|].
  cbn. destruct (srv _); reflexivity.
Qed.

(** ** Requests in flight *)

Lemma launch_inflight (p : Proc unit) (s : State) (pend : list InFlight) :
  inflight (launch p s pend) = (pend ++ pendingOf p)%list.
Proof.
  unfold pendingOf. revert s pend.
  induction p as [a|e|u k IH|r k _]; intros s pend; cbn.
  - by rewrite app_nil_r.
  - by rewrite app_nil_r.
  - by rewrite (IH (u s) pend), (IH (u initialState) []).
  - reflexivity.
Qed.

Lemma synchronous_pendingOf (p : Proc unit) :
  synchronous p -> pendingOf p = [].
Proof.
  induction p as [a|e|u k IH|r k _]; cbn; intros Hp; try done.
  unfold pendingOf. cbn. rewrite launch_inflight. by rewrite IH.
Qed.

Ltac known_cases H :=
  let p := fresh "p" in
  let Hp := fresh "Hp" in
  let Hf := fresh "Hf" in
  destruct H as (p & Hp & Hf);
  destruct Hp as [tf|pf|pf|ds ld];
  [ | | | unfold loadSymbols in Hf;
          destruct (String.eqb ds "yfinance");
          [ apply elem_of_nil in Hf; destruct Hf | ] ];
  apply list_elem_of_singleton in Hf; subst.

Lemma known_synchronous (f : InFlight) o :
  known f -> synchronous (resume f o).
Proof. intros H. known_cases H; destruct o; exact I. Qed.

Lemma known_endpoint (f : InFlight) :
  known f -> endpoint (request f) ∈ endpoints.
Proof.
  intros H. unfold endpoints.
  known_cases H; unfold endpoint; cbn; rewrite !elem_of_cons; auto 6.
Qed.

Lemma handler_pending_known (p : Proc unit) :
  handler p -> Forall known (pendingOf p).
Proof. intros Hp. apply Forall_forall. intros f Hf. by exists p. Qed.

Lemma reachable_known (c : Config) :
  reachable c -> Forall known (inflight c).
Proof.
  induction 1 as [|c c' _ IH Hstep].
  - unfold mount. rewrite launch_inflight. cbn [app].
    apply handler_pending_known. constructor.
  - destruct Hstep as [e c|e c _|symbol c _|c|c|c|c before f after o Hc].
    + unfold changeTrainForm.
      destruct (depsChanged _ _); rewrite ?launch_inflight.
      * rewrite synchronous_pendingOf by exact I. rewrite app_nil_r.
        apply Forall_app. split; [done|].
        apply handler_pending_known. constructor.
      * rewrite synchronous_pendingOf by exact I. by rewrite app_nil_r.
    + rewrite launch_inflight, synchronous_pendingOf by exact I.
      by rewrite app_nil_r.
    + rewrite launch_inflight, synchronous_pendingOf by exact I.
      by rewrite app_nil_r.
    + rewrite launch_inflight. apply Forall_app. split; [done|].
      apply handler_pending_known. constructor.
    + rewrite launch_inflight. apply Forall_app. split; [done|].
      apply handler_pending_known. constructor.
    + rewrite launch_inflight. apply Forall_app. split; [done|].
      apply handler_pending_known. constructor.
    + rewrite Hc in IH.
      apply Forall_app in IH as [Hb Hfa].
      apply Forall_cons in Hfa as [Hf Ha].
      rewrite launch_inflight.
      rewrite synchronous_pendingOf by (by apply known_synchronous).
      rewrite app_nil_r. apply Forall_app. by split.
Qed.

Lemma known_viaClient (f : InFlight) :
  known f -> viaClient (request f).
Proof.
  intros H. unfold viaClient. known_cases H; cbn.
  - left. by eexists.
  - right; left. by eexists.
  - do 3 right. by eexists.
  - do 2 right; left. by eexists.
Qed.

(** ** Forecast result and history-only series *)



(** ** The API client *)

(** C1: the four functions of the client send POST /api/train,
    POST /api/predict, GET /api/symbols and GET /api/history, one request
    each; every request the page ever has in flight was sent by one of
    them, so to one of these four endpoints. *)
Theorem api_endpoints :
  (forall (srv : Server) (payload : TrainPayload.t) (s : State),
     Run.requests (run srv (trainModel payload) s) =
     [ {| method := POST; url := "/api/train";
          content := TrainBody payload; expect := TrainShape |} ]) /\
  (forall (srv : Server) (payload : PredictPayload.t) (s : State),
     Run.requests (run srv (predictStock payload) s) =
     [ {| method := POST; url := "/api/predict";
          content := PredictBody payload; expect := ForecastShape |} ]) /\
  (forall (srv : Server) (params : SymbolsParams.t) (s : State),
     Run.requests (run srv (getSymbols params) s) =
     [ {| method := GET; url := "/api/symbols";
          content := SymbolsQuery params; expect := SymbolsShape |} ]) /\
  (forall (srv : Server) (params : HistoryParams.t) (s : State),
     Run.requests (run srv (getHistory params) s) =
     [ {| method := GET; url := "/api/history";
          content := HistoryQuery params; expect := HistoryShape |} ]) /\
  (forall c : Config,
     reachable c ->
     forall (i : nat) (f : InFlight),
       inflight c !! i = Some f ->
       viaClient (request f) /\ endpoint (request f) ∈ endpoints).
Proof.
  repeat split.
  - intros srv payload s. cbn. destruct (srv _); reflexivity.
  - intros srv payload s. cbn. destruct (srv _); reflexivity.
  - intros srv params s. cbn. destruct (srv _); reflexivity.
  - intros srv params s. cbn. destruct (srv _); reflexivity.
  - apply known_viaClient.
    eapply Forall_lookup_1; [by apply reachable_known|done].
  - apply known_endpoint.
    eapply Forall_lookup_1; [by apply reachable_known|done].
Qed.

(** ** Handlers *)



(** C6: the train payload carries input_len, pred_len, epochs, batch_size
    and learning_rate as the numbers [Number] makes of the form's values
    (the conversion of the string for a typed value), the predict payload
    horizon and history_points likewise; in both local_data_dir is null
    when the form field is empty and the entered path otherwise. *)
Theorem payload_numbers (srv : Server) (s : State) :
  (forall tf : TrainForm.t,
     exists payload : TrainPayload.t,
       Run.requests (run srv (onTrainSubmit tf) s) =
       [ {| method := POST; url := "/api/train";
            content := TrainBody payload; expect := TrainShape |} ] /\
       TrainPayload.input_len payload = Number (TrainForm.input_len tf) /\
       TrainPayload.pred_len payload = Number (TrainForm.pred_len tf) /\
       TrainPayload.epochs payload = Number (TrainForm.epochs tf) /\
       TrainPayload.batch_size payload = Number (TrainForm.batch_size tf) /\
       TrainPayload.learning_rate payload = Number (TrainForm.learning_rate tf) /\
       (TrainForm.local_data_dir tf = "" ->
        TrainPayload.local_data_dir payload = None) /\
       (TrainForm.local_data_dir tf <> "" ->
        TrainPayload.local_data_dir payload = Some (TrainForm.local_data_dir tf))) /\
  (forall pf : PredictForm.t,
     exists payload : PredictPayload.t,
       Run.requests (run srv (onPredictSubmit pf) s) =
       [ {| method := POST; url := "/api/predict";
            content := PredictBody payload; expect := ForecastShape |} ] /\
       PredictPayload.horizon payload = Number (PredictForm.horizon pf) /\
       PredictPayload.history_points payload =
         Number (PredictForm.history_points pf) /\
       (PredictForm.local_data_dir pf = "" ->
        PredictPayload.local_data_dir payload = None) /\
       (PredictForm.local_data_dir pf <> "" ->
        PredictPayload.local_data_dir payload =
          Some (PredictForm.local_data_dir pf))) /\
  (forall v : string, Number (FStr v) = StringToNumber v) /\
  (forall n : float, Number (FNum n) = n).
Proof.
  split; [|split; [|split]]; try reflexivity.
  - intros tf. exists (trainPayload tf).
    rewrite run_onTrainSubmit. cbn. unfold or_none, truthy.
    repeat split.
    + by intros ->.
    + intros Hne. apply String.eqb_neq in Hne. by rewrite Hne.
  - intros pf. exists (predictPayload pf).
    rewrite run_onPredictSubmit. cbn. unfold or_none, truthy.
    repeat split.
    + by intros ->.
    + intros Hne. apply String.eqb_neq in Hne. by rewrite Hne.
Qed.



(** C9: a failed train submit, predict submit or history load changes
    nothing but the error message and the handler's own loading flag: the
    results and both forms are as they were.  This holds of the handler run
    in one piece, and of the rejection arriving in any later state [s']. *)
Theorem failure_leaves_results (srv : Server) (s : State) (err : Error) :
  (forall tf : TrainForm.t,
     srv (trainRequest tf) = inl err ->
     Run.final (run srv (onTrainSubmit tf) s) =
     mkState (trainForm s) (predictForm s) (symbols s) (trainResult s)
       (forecastResult s) (historyOnly s)
       false (loadingPredict s) (loadingHistory s) (loadingSymbols s)
       (errorText err "Training failed")) /\
  (forall pf : PredictForm.t,
     srv (predictRequest pf) = inl err ->
     Run.final (run srv (onPredictSubmit pf) s) =
     mkState (trainForm s) (predictForm s) (symbols s) (trainResult s)
       (forecastResult s) (historyOnly s)
       (loadingTrain s) false (loadingHistory s) (loadingSymbols s)
       (errorText err "Prediction failed")) /\
  (forall pf : PredictForm.t,
     srv (historyRequest pf) = inl err ->
     Run.final (run srv (onLoadHistory pf) s) =
     mkState (trainForm s) (predictForm s) (symbols s) (trainResult s)
       (forecastResult s) (historyOnly s)
       (loadingTrain s) (loadingPredict s) false (loadingSymbols s)
       (errorText err "History fetch failed")) /\
  (forall (tf : TrainForm.t) (f : InFlight),
     pendingOf (onTrainSubmit tf) !! 0 = Some f ->
     forall (s' : State) (pend : list InFlight),
       launch (resume f (inl err)) s' pend =
       mkConfig
         (mkState (trainForm s') (predictForm s') (symbols s') (trainResult s')
            (forecastResult s') (historyOnly s')
            false (loadingPredict s') (loadingHistory s') (loadingSymbols s')
            (errorText err "Training failed"))
         pend) /\
  (forall (pf : PredictForm.t) (f : InFlight),
     pendingOf (onPredictSubmit pf) !! 0 = Some f ->
     forall (s' : State) (pend : list InFlight),
       launch (resume f (inl err)) s' pend =
       mkConfig
         (mkState (trainForm s') (predictForm s') (symbols s') (trainResult s')
            (forecastResult s') (historyOnly s')
            (loadingTrain s') false (loadingHistory s') (loadingSymbols s')
            (errorText err "Prediction failed"))
         pend) /\
  (forall (pf : PredictForm.t) (f : InFlight),
     pendingOf (onLoadHistory pf) !! 0 = Some f ->
     forall (s' : State) (pend : list InFlight),
       launch (resume f (inl err)) s' pend =
       mkConfig
         (mkState (trainForm s') (predictForm s') (symbols s') (trainResult s')
            (forecastResult s') (historyOnly s')
            (loadingTrain s') (loadingPredict s') false (loadingSymbols s')
            (errorText err "History fetch failed"))
         pend).
Proof.
  split; [|split; [|split; [|split; [|split]]]].
  - intros tf Hsrv. by rewrite run_onTrainSubmit, Hsrv.
  - intros pf Hsrv. by rewrite run_onPredictSubmit, Hsrv.
  - intros pf Hsrv. by rewrite run_onLoadHistory, Hsrv.
  - intros tf f Hf s' pend. by simplify_eq/=.
  - intros pf f Hf s' pend. by simplify_eq/=.
  - intros pf f Hf s' pend. by simplify_eq/=.
Qed.

(** C10: after a successful train submission the predict form has the
    ticker, data_source and local_data_dir of the train form that was
    submitted, and the horizon and history_points it had: of the handler
    run in one piece from [s], and of the response arriving in any later
    state [s']. *)
Theorem train_success_copies_to_predict_form (tf : TrainForm.t) :
  (forall (srv : Server) (s : State) (data : TrainResult.t),
     srv (trainRequest tf) = inr data ->
     predictForm (Run.final (run srv (onTrainSubmit tf) s)) =
     {| PredictForm.ticker := TrainForm.ticker tf;
        PredictForm.horizon := PredictForm.horizon (predictForm s);
        PredictForm.history_points := PredictForm.history_points (predictForm s);
        PredictForm.data_source := TrainForm.data_source tf;
        PredictForm.local_data_dir := TrainForm.local_data_dir tf |}) /\
  (forall f : InFlight,
     pendingOf (onTrainSubmit tf) !! 0 = Some f ->
     forall data (s' : State) (pend : list InFlight),
       predictForm (ui (launch (resume f (inr data)) s' pend)) =
       {| PredictForm.ticker := TrainForm.ticker tf;
          PredictForm.horizon := PredictForm.horizon (predictForm s');
          PredictForm.history_points := PredictForm.history_points (predictForm s');
          PredictForm.data_source := TrainForm.data_source tf;
          PredictForm.local_data_dir := TrainForm.local_data_dir tf |}).
Proof.
  split.
  - intros srv s data Hsrv. by rewrite run_onTrainSubmit, Hsrv.
  - intros f Hf data s' pend. by simplify_eq/=.
Qed.

(** * Further properties of the view models *)

(** X1: no chart sample lies on both lines: each sample of [chartData] has
    exactly one of [history] and [forecast] set, and the samples carry the
    dates of the source series in order. *)
Theorem chartData_one_line (forecastResult : option ForecastResult.t)
    (historyOnly : list Point.t) :
  Forall (fun pt : ChartPoint.t =>
            (is_Some (ChartPoint.history pt) /\ ChartPoint.forecast pt = None) \/
            (ChartPoint.history pt = None /\ is_Some (ChartPoint.forecast pt)))
         (chartData forecastResult historyOnly) /\
  map ChartPoint.date (chartData forecastResult historyOnly) =
    match forecastResult with
    | Some fr =>
        map Point.date (ForecastResult.history fr ++ ForecastResult.forecast fr)%list
    | None => map Point.date historyOnly
    end.
Proof.
  split.
  - destruct forecastResult as [fr|]; cbn.
    + apply Forall_app. split; apply Forall_map, Forall_true; intros p; cbn.
      * left. split; [by eexists|done].
      * right. split; [done|by eexists].
    + destruct historyOnly as [|p ho]; [constructor|].
      change (Forall (fun pt : ChartPoint.t =>
                (is_Some (ChartPoint.history pt) /\ ChartPoint.forecast pt = None) \/
                (ChartPoint.history pt = None /\ is_Some (ChartPoint.forecast pt)))
              (map historyPoint (p :: ho))).
      apply Forall_map, Forall_true. intros q. left. split; [by eexists|done].
  - destruct forecastResult as [fr|]; cbn.
    + rewrite !map_app, !map_map. reflexivity.
    + destruct historyOnly as [|p ho]; [reflexivity|].
      cbn. by rewrite map_map.
Qed.

(** X2: the chart is replaced by its placeholder ([chartData] is empty)
    exactly when there is nothing to draw: no forecast result and no
    history-only series, or a forecast result whose history and forecast
    are both empty. *)
Theorem chartData_empty_iff (forecastResult : option ForecastResult.t)
    (historyOnly : list Point.t) :
  chartData forecastResult historyOnly = [] <->
  match forecastResult with
  | Some fr => ForecastResult.history fr = [] /\ ForecastResult.forecast fr = []
  | None => historyOnly = []
  end.
Proof.
  destruct forecastResult as [fr|]; cbn.
  - split.
    + intros H. apply app_eq_nil in H as [Hh Hf].
      split; eapply map_eq_nil; eassumption.
    + intros [-> ->]. reflexivity.
  - destruct historyOnly; [done|]. split; discriminate.
Qed.

(** X3: the steps of the forecast tape are 1, 2, ..., n, and the tape is
    empty exactly when there is no forecast result or its forecast is
    empty. *)
Theorem forecastRows_steps (forecastResult : option ForecastResult.t) :
  map TapeRow.step (forecastRows forecastResult) =
    seq 1 (length (forecastRows forecastResult)) /\
  (forecastRows forecastResult = [] <->
   match forecastResult with
   | Some fr => ForecastResult.forecast fr = []
   | None => True
   end).
Proof.
  destruct forecastResult as [fr|]; cbn; [|done].
  split.
  - rewrite length_imap. apply list_eq. intros i.
    rewrite list_lookup_fmap, list_lookup_imap.
    destruct (ForecastResult.forecast fr !! i) as [p|] eqn:Hi; cbn.
    + symmetry. rewrite lookup_seq. split; [lia|].
      by apply lookup_lt_Some in Hi.
    + symmetry. apply lookup_ge_None. rewrite length_seq.
      by apply lookup_ge_None in Hi.
  - destruct (ForecastResult.forecast fr); cbn; split; done.
Qed.

(** X4: the forecast line of the chart and the forecast tape show the same
    dated values in the same order: the samples of [chartData] that carry a
    forecast value are those of the tape's rows. *)
Theorem chart_forecast_matches_tape (fr : ForecastResult.t)
    (historyOnly : list Point.t) :
  drop (length (ForecastResult.history fr)) (chartData (Some fr) historyOnly) =
    map (fun row => ChartPoint.mk (TapeRow.date row) None (Some (TapeRow.value row)))
        (forecastRows (Some fr)) /\
  Forall (fun pt => ChartPoint.forecast pt = None)
         (take (length (ForecastResult.history fr)) (chartData (Some fr) historyOnly)).
Proof.
  cbn. split.
  - rewrite drop_app_length'; [|by rewrite length_map].
    apply list_eq. intros i.
    rewrite !list_lookup_fmap, list_lookup_imap.
    by destruct (ForecastResult.forecast fr !! i).
  - rewrite take_app_length'; [|by rewrite length_map].
    apply Forall_map, Forall_true. done.
Qed.

Lemma forecastRows_last (fr : ForecastResult.t) :
  last (forecastRows (Some fr)) =
  forecastRow (ForecastResult.last_close fr)
    (pred (length (ForecastResult.forecast fr)))
  <$> last (ForecastResult.forecast fr).
Proof.
  rewrite !last_lookup. cbn. rewrite length_imap. apply list_lookup_imap.
Qed.

(** X5: the projected change is missing exactly when there is no forecast
    result, the forecast is empty, or the last close is zero; when it is
    there, it is the percentage of the last row of the forecast tape. *)
Theorem projectedChangePct_spec (forecastResult : option ForecastResult.t) :
  (projectedChangePct forecastResult = None <->
   match forecastResult with
   | Some fr =>
       ForecastResult.forecast fr = [] \/
       PrimFloat.eqb (ForecastResult.last_close fr) 0 = true
   | None => True
   end) /\
  (forall pct : float,
     projectedChangePct forecastResult = Some pct ->
     TapeRow.pct <$> last (forecastRows forecastResult) = Some pct).
Proof.
  destruct forecastResult as [fr|]; [|split; [done|discriminate]].
  unfold projectedChangePct. cbn -[forecastRows].
  rewrite forecastRows_last.
  destruct (last (ForecastResult.forecast fr)) as [p|] eqn:Hlast; cbn.
  - destruct (PrimFloat.eqb (ForecastResult.last_close fr) 0) eqn:Hz; cbn.
    + split; [|discriminate]. split; [by right|done].
    + split; [|by intros pct [= <-]].
      split; [discriminate|].
      intros [Hnil|Hzero]; [|discriminate].
      rewrite Hnil in Hlast. discriminate.
  - apply last_None in Hlast. split; [|discriminate].
    split; [by left|done].
Qed.

(** X6: when the chart shades a reference area, the area starts at the
    date of the first forecast point, which is the chart sample right after
    the history, and ends at the date of the last forecast point; nothing
    is shaded exactly when there is no forecast point or the first one has
    an empty date. *)
Theorem referenceArea_spans_forecast (forecastResult : option ForecastResult.t)
    (historyOnly : list Point.t) :
  (forall (x1 : string) (x2 : option string),
     referenceArea forecastResult historyOnly = Some (x1, x2) ->
     exists (fr : ForecastResult.t) (first final : Point.t),
       forecastResult = Some fr /\
       ForecastResult.forecast fr !! 0 = Some first /\
       last (ForecastResult.forecast fr) = Some final /\
       x1 = Point.date first /\
       x2 = Some (Point.date final) /\
       chartData forecastResult historyOnly
         !! length (ForecastResult.history fr) =
       Some (ChartPoint.mk (Point.date first) None (Some (Point.value first)))) /\
  (referenceArea forecastResult historyOnly = None <->
   match forecastResult with
   | Some fr =>
       match ForecastResult.forecast fr !! 0 with
       | Some first => Point.date first = ""
       | None => True
       end
   | None => True
   end).
Proof.
  unfold referenceArea, forecastStartDate.
  destruct forecastResult as [fr|]; [|split; [discriminate|done]].
  destruct (ForecastResult.forecast fr !! 0) as [first|] eqn:Hfirst;
    [|split; [discriminate|done]].
  unfold or_none, truthy.
  destruct (String.eqb_spec (Point.date first) "") as [Hd|Hd]; cbn -[chartData].
  - split; [discriminate|done].
  - split; [|split; [discriminate|done]].
    intros x1 x2 [= <- <-].
    destruct (last (ForecastResult.forecast fr)) as [final|] eqn:Hlast.
    + exists fr, first, final.
      split; [reflexivity|]. split; [exact Hfirst|]. split; [exact Hlast|].
      split; [reflexivity|]. unfold chartData. cbv zeta. split.
      * rewrite last_app.
        change (map forecastPoint (ForecastResult.forecast fr))
          with (forecastPoint <$> ForecastResult.forecast fr).
        rewrite fmap_last, Hlast. reflexivity.
      * rewrite lookup_app_r by (by rewrite length_map).
        rewrite length_map, Nat.sub_diag, list_lookup_fmap, Hfirst.
        reflexivity.
    + apply last_None in Hlast. rewrite Hlast in Hfirst. discriminate.
Qed.

(** * Further properties of the forms and handlers *)

(** X7: after a click on a horizon preset, that preset's button is the
    active one and no other preset's is. *)
Theorem preset_highlight (pf : PredictForm.t) (p q : float) :
  p ∈ horizonPresets ->
  q ∈ horizonPresets ->
  presetActive (editPredict (PredictPreset p) pf) q = true <-> p = q.
Proof.
  unfold horizonPresets. rewrite !elem_of_cons, !elem_of_nil.
  intros Hp Hq. destruct pf as [tk hz hp ds ld]. unfold presetActive. cbn.
  destruct Hp as [->|[->|[->|[->|[]]]]];
    destruct Hq as [->|[->|[->|[->|[]]]]];
    (split; [ first [ reflexivity | discriminate ] | ]);
    first [ reflexivity
          | intros H;
            match type of H with
            | ?a = ?b =>
                pose proof (f_equal (fun x => PrimFloat.eqb x a) H) as E;
                cbv in E; discriminate E
            end ].
Qed.

(** X8: a click on a quick symbol puts the symbol into the ticker of both
    forms and changes nothing else: no request is sent, the symbols effect
    does not run again, and the next train and predict payloads carry the
    symbol. *)
Theorem applySymbol_effect (symbol : string) (s : State) (pend : list InFlight) :
  let after := ui (launch (applySymbol symbol) s pend) in
  inflight (launch (applySymbol symbol) s pend) = pend /\
  after =
    mkState
      (TrainForm.mk symbol (TrainForm.period (trainForm s))
         (TrainForm.input_len (trainForm s)) (TrainForm.pred_len (trainForm s))
         (TrainForm.epochs (trainForm s)) (TrainForm.batch_size (trainForm s))
         (TrainForm.learning_rate (trainForm s))
         (TrainForm.data_source (trainForm s))
         (TrainForm.local_data_dir (trainForm s)))
      (PredictForm.mk symbol (PredictForm.horizon (predictForm s))
         (PredictForm.history_points (predictForm s))
         (PredictForm.data_source (predictForm s))
         (PredictForm.local_data_dir (predictForm s)))
      (symbols s) (trainResult s) (forecastResult s) (historyOnly s)
      (loadingTrain s) (loadingPredict s) (loadingHistory s)
      (loadingSymbols s) (error s) /\
  depsChanged (trainForm s) (trainForm after) = false /\
  TrainPayload.ticker (trainPayload (trainForm after)) = symbol /\
  PredictPayload.ticker (predictPayload (predictForm after)) = symbol.
Proof.
  cbn. repeat split. unfold depsChanged. cbn.
  by rewrite !String.eqb_refl.
Qed.

(** X9: a change of the train form starts a symbols fetch exactly when it
    changes the data source or the data directory and the new source is not
    yfinance, and the fetch carries the new values; a change of any other
    field, or selecting the source already selected, sends nothing. *)
Theorem symbols_effect_trigger (e : TrainEdit) (c : Config) :
  let old := trainForm (ui c) in
  let new := editTrain e old in
  trainForm (ui (changeTrainForm e c)) = new /\
  map request (inflight (changeTrainForm e c)) =
    (map request (inflight c) ++
     if depsChanged old new && negb (String.eqb (TrainForm.data_source new) "yfinance")
     then [symbolsRequest (TrainForm.data_source new) (TrainForm.local_data_dir new)]
     else [])%list /\
  ((forall v, e <> TrainDataSource v) ->
   (forall v, e <> TrainLocalDataDir v) ->
   inflight (changeTrainForm e c) = inflight c) /\
  (e = TrainDataSource (TrainForm.data_source old) ->
   inflight (changeTrainForm e c) = inflight c).
Proof.
  cbv zeta. unfold changeTrainForm, symbolsEffect, loadSymbols.
  split; [|split; [|split]].
  - destruct (depsChanged _ _); [|reflexivity].
    by destruct (String.eqb _ "yfinance").
  - destruct (depsChanged _ _); cbn; [|by rewrite app_nil_r].
    destruct (String.eqb _ "yfinance"); cbn; [by rewrite app_nil_r|].
    by rewrite map_app.
  - intros Hds Hld.
    assert (depsChanged (trainForm (ui c)) (editTrain e (trainForm (ui c))) = false)
      as ->; [|reflexivity].
    unfold depsChanged. destruct (trainForm (ui c)), e; cbn;
      rewrite ?String.eqb_refl; try reflexivity.
    + by destruct (Hds v).
    + by destruct (Hld v).
  - intros ->.
    assert (depsChanged (trainForm (ui c))
              (editTrain (TrainDataSource (TrainForm.data_source (trainForm (ui c))))
                 (trainForm (ui c))) = false) as ->; [|reflexivity].
    unfold depsChanged. destruct (trainForm (ui c)); cbn.
    by rewrite !String.eqb_refl.
Qed.


(** X11: whatever the service answers, every handler runs to its end
    without throwing, and the three submit handlers end with their loading
    flag off. *)
Theorem handlers_never_throw (srv : Server) (s : State) :
  (forall tf : TrainForm.t,
     Run.result (run srv (onTrainSubmit tf) s) = inr tt /\
     loadingTrain (Run.final (run srv (onTrainSubmit tf) s)) = false) /\
  (forall pf : PredictForm.t,
     Run.result (run srv (onPredictSubmit pf) s) = inr tt /\
     loadingPredict (Run.final (run srv (onPredictSubmit pf) s)) = false) /\
  (forall pf : PredictForm.t,
     Run.result (run srv (onLoadHistory pf) s) = inr tt /\
     loadingHistory (Run.final (run srv (onLoadHistory pf) s)) = false) /\
  (forall ds ld : string,
     Run.result (run srv (loadSymbols ds ld) s) = inr tt).
Proof.
  split; [|split; [|split]].
  - intros tf. rewrite run_onTrainSubmit. by destruct (srv _).
  - intros pf. rewrite run_onPredictSubmit. by destruct (srv _).
  - intros pf. rewrite run_onLoadHistory. by destruct (srv _).
  - intros ds ld. destruct (String.eqb_spec ds "yfinance") as [->|Hds].
    + by rewrite run_loadSymbols_yfinance.
    + by rewrite run_loadSymbols_fetch.
Qed.

(** X12: a forecast (or a history load) requested right after a successful
    training asks for what was trained: its request carries the ticker, the
    data source and the data directory of the train request, with the
    horizon and history points the predict form already had. *)
Theorem predict_after_train (srv srv' : Server) (s : State) (tf : TrainForm.t)
    (data : TrainResult.t) :
  srv (trainRequest tf) = inr data ->
  let s' := Run.final (run srv (onTrainSubmit tf) s) in
  (exists payload : PredictPayload.t,
     Run.requests (run srv' (onPredictSubmit (predictForm s')) s') =
       [ {| method := POST; url := "/api/predict";
            content := PredictBody payload; expect := ForecastShape |} ] /\
     PredictPayload.ticker payload = TrainPayload.ticker (trainPayload tf) /\
     PredictPayload.data_source payload =
       TrainPayload.data_source (trainPayload tf) /\
     PredictPayload.local_data_dir payload =
       TrainPayload.local_data_dir (trainPayload tf) /\
     PredictPayload.horizon payload = Number (PredictForm.horizon (predictForm s)) /\
     PredictPayload.history_points payload =
       Number (PredictForm.history_points (predictForm s))) /\
  (exists params : HistoryParams.t,
     Run.requests (run srv' (onLoadHistory (predictForm s')) s') =
       [ {| method := GET; url := "/api/history";
            content := HistoryQuery params; expect := HistoryShape |} ] /\
     HistoryParams.ticker params = TrainPayload.ticker (trainPayload tf) /\
     HistoryParams.data_source params =
       TrainPayload.data_source (trainPayload tf) /\
     HistoryParams.local_data_dir params =
       TrainPayload.local_data_dir (trainPayload tf) /\
     HistoryParams.history_points params =
       Number (PredictForm.history_points (predictForm s))).
Proof.
  intros Hsrv. cbv zeta. rewrite run_onTrainSubmit, Hsrv. split.
  - eexists. rewrite run_onPredictSubmit. by repeat split.
  - eexists. rewrite run_onLoadHistory. by repeat split.
Qed.

(** X13: starting a submit clears the error message and turns the
    handler's loading flag on before any answer: these are the only changes
    to the state, and the handler's one request joins those in flight.
    Starting a symbols fetch turns its loading flag on and leaves the error
    message alone. *)
Theorem submit_start (s : State) (pend : list InFlight) :
  (forall tf : TrainForm.t,
     ui (launch (onTrainSubmit tf) s pend) =
       mkState (trainForm s) (predictForm s) (symbols s) (trainResult s)
         (forecastResult s) (historyOnly s)
         true (loadingPredict s) (loadingHistory s) (loadingSymbols s) "" /\
     map request (inflight (launch (onTrainSubmit tf) s pend)) =
       (map request pend ++ [trainRequest tf])%list) /\
  (forall pf : PredictForm.t,
     ui (launch (onPredictSubmit pf) s pend) =
       mkState (trainForm s) (predictForm s) (symbols s) (trainResult s)
         (forecastResult s) (historyOnly s)
         (loadingTrain s) true (loadingHistory s) (loadingSymbols s) "" /\
     map request (inflight (launch (onPredictSubmit pf) s pend)) =
       (map request pend ++ [predictRequest pf])%list) /\
  (forall pf : PredictForm.t,
     ui (launch (onLoadHistory pf) s pend) =
       mkState (trainForm s) (predictForm s) (symbols s) (trainResult s)
         (forecastResult s) (historyOnly s)
         (loadingTrain s) (loadingPredict s) true (loadingSymbols s) "" /\
     map request (inflight (launch (onLoadHistory pf) s pend)) =
       (map request pend ++ [historyRequest pf])%list) /\
  (forall ds ld : string,
     ds <> "yfinance" ->
     ui (launch (loadSymbols ds ld) s pend) =
       mkState (trainForm s) (predictForm s) (symbols s) (trainResult s)
         (forecastResult s) (historyOnly s)
         (loadingTrain s) (loadingPredict s) (loadingHistory s) true (error s) /\
     map request (inflight (launch (loadSymbols ds ld) s pend)) =
       (map request pend ++ [symbolsRequest ds ld])%list).
Proof.
  split; [|split; [|split]].
  - intros tf. cbn. by rewrite map_app.
  - intros pf. cbn. by rewrite map_app.
  - intros pf. cbn. by rewrite map_app.
  - intros ds ld Hds. unfold loadSymbols.
    destruct (String.eqb_spec ds "yfinance") as [->|_]; [done|].
    cbn. by rewrite map_app.
Qed.


(** * Further properties of the page as a transition system *)

Lemma Exists_without {A : Type} (P : A -> Prop) (before after : list A) (x : A) :
  Exists P (before ++ x :: after) -> ~ P x -> Exists P (before ++ after).
Proof.
  rewrite !Exists_app, Exists_cons. intros [H|[H|H]] Hx; auto. by destruct Hx.
Qed.

Lemma Exists_awaiting (e : Method * string) (c : Config) :
  Exists (fun f => endpoint (request f) = e) (inflight c) -> awaiting e c.
Proof.
  intros H. apply Exists_exists in H as (f & Hf & He).
  apply list_elem_of_lookup in Hf as [i Hi]. by exists i, f.
Qed.

Ltac backed_step IH :=
  destruct IH as (IHt & IHp & IHh & IHs);
  cbn;
  repeat match goal with |- _ /\ _ => split end;
  intros Hflag;
  try discriminate Hflag;
  first
    [ apply Exists_app; right; apply Exists_cons; left; reflexivity
    | apply Exists_app; left; auto; fail
    | eapply Exists_without; [eauto|discriminate]
    | auto ].

Lemma reachable_backed (c : Config) :
  reachable c ->
  (loadingTrain (ui c) = true ->
   Exists (fun f => endpoint (request f) = (POST, "/api/train")) (inflight c)) /\
  (loadingPredict (ui c) = true ->
   Exists (fun f => endpoint (request f) = (POST, "/api/predict")) (inflight c)) /\
  (loadingHistory (ui c) = true ->
   Exists (fun f => endpoint (request f) = (GET, "/api/history")) (inflight c)) /\
  (loadingSymbols (ui c) = true ->
   Exists (fun f => endpoint (request f) = (GET, "/api/symbols")) (inflight c)).
Proof.
  induction 1 as [|c c' Hc IH Hstep].
  - cbn. repeat split; try discriminate.
    intros _. apply Exists_cons. by left.
  - destruct Hstep as [e c|e c _|symbol c _|c|c|c|c before f after o Hin].
    + unfold changeTrainForm, symbolsEffect, loadSymbols.
      destruct (depsChanged _ _); [|backed_step IH].
      destruct (String.eqb _ "yfinance"); backed_step IH.
    + backed_step IH.
    + backed_step IH.
    + backed_step IH.
    + backed_step IH.
    + backed_step IH.
    + apply reachable_known in Hc. rewrite Hin in Hc, IH.
      apply Forall_app in Hc as [_ Hc].
      apply Forall_cons in Hc as [Hf _].
      known_cases Hf; destruct o; backed_step IH.
Qed.

(** X15: a loading flag is on only while a request of its handler is in
    flight; so once every request has been answered, no loading flag is
    left on. *)
Theorem loading_flags_backed (c : Config) :
  reachable c ->
  (loadingTrain (ui c) = true -> awaiting (POST, "/api/train") c) /\
  (loadingPredict (ui c) = true -> awaiting (POST, "/api/predict") c) /\
  (loadingHistory (ui c) = true -> awaiting (GET, "/api/history") c) /\
  (loadingSymbols (ui c) = true -> awaiting (GET, "/api/symbols") c) /\
  (inflight c = [] ->
   loadingTrain (ui c) = false /\ loadingPredict (ui c) = false /\
   loadingHistory (ui c) = false /\ loadingSymbols (ui c) = false).
Proof.
  intros Hc. destruct (reachable_backed c Hc) as (Ht & Hp & Hh & Hs).
  split; [|split; [|split; [|split]]].
  - intros H. by apply Exists_awaiting, Ht.
  - intros H. by apply Exists_awaiting, Hp.
  - intros H. by apply Exists_awaiting, Hh.
  - intros H. by apply Exists_awaiting, Hs.
  - intros Hnil. rewrite Hnil in Ht, Hp, Hh, Hs.
    repeat split.
    + destruct (loadingTrain (ui c)); [|done].
      by apply Exists_nil in Ht.
    + destruct (loadingPredict (ui c)); [|done].
      by apply Exists_nil in Hp.
    + destruct (loadingHistory (ui c)); [|done].
      by apply Exists_nil in Hh.
    + destruct (loadingSymbols (ui c)); [|done].
      by apply Exists_nil in Hs.
Qed.

(** X16: requests are never cancelled or duplicated.  Every callback of
    the page is a form edit, a quick-symbol click, a submit, a history
    load, or the delivery of an answer to the handler that awaits it.  An
    edit of the train form keeps the requests in flight and appends at most
    one; an edit of the predict form and a quick-symbol click keep them as
    they are; a submit or history load keeps them and appends its one
    request; the delivery of an answer takes the answered request out,
    keeps all the others and appends none. *)
Theorem requests_never_cancelled :
  (forall (e : TrainEdit) (c : Config),
     exists extra : list InFlight,
       inflight (changeTrainForm e c) = (inflight c ++ extra)%list /\
       length extra <= 1) /\
  (forall (e : PredictEdit) (s : State) (pend : list InFlight),
     inflight (launch (setPredictForm (editPredict e)) s pend) = pend) /\
  (forall (symbol : string) (s : State) (pend : list InFlight),
     inflight (launch (applySymbol symbol) s pend) = pend) /\
  (forall (tf : TrainForm.t) (s : State) (pend : list InFlight),
     exists f : InFlight,
       inflight (launch (onTrainSubmit tf) s pend) = (pend ++ [f])%list /\
       request f = trainRequest tf) /\
  (forall (pf : PredictForm.t) (s : State) (pend : list InFlight),
     exists f : InFlight,
       inflight (launch (onPredictSubmit pf) s pend) = (pend ++ [f])%list /\
       request f = predictRequest pf) /\
  (forall (pf : PredictForm.t) (s : State) (pend : list InFlight),
     exists f : InFlight,
       inflight (launch (onLoadHistory pf) s pend) = (pend ++ [f])%list /\
       request f = historyRequest pf) /\
  (forall c : Config,
     reachable c ->
     forall (before : list InFlight) (f : InFlight) (after : list InFlight),
       inflight c = (before ++ f :: after)%list ->
       forall o,
         inflight (launch (resume f o) (ui c) (before ++ after)%list) =
         (before ++ after)%list) /\
  (forall c c' : Config,
     step c c' ->
     (exists e, c' = changeTrainForm e c) \/
     (exists e, c' = launch (setPredictForm (editPredict e)) (ui c) (inflight c)) \/
     (exists symbol, c' = launch (applySymbol symbol) (ui c) (inflight c)) \/
     c' = launch (onTrainSubmit (trainForm (ui c))) (ui c) (inflight c) \/
     c' = launch (onPredictSubmit (predictForm (ui c))) (ui c) (inflight c) \/
     c' = launch (onLoadHistory (predictForm (ui c))) (ui c) (inflight c) \/
     (exists (before : list InFlight) (f : InFlight) (after : list InFlight) o,
        inflight c = (before ++ f :: after)%list /\
        c' = launch (resume f o) (ui c) (before ++ after)%list)).
Proof.
  split; [|split; [|split; [|split; [|split; [|split; [|split]]]]]].
  - intros e c. unfold changeTrainForm, symbolsEffect, loadSymbols.
    destruct (depsChanged _ _);
      [|exists []; split; [by rewrite app_nil_r|cbn; lia]].
    destruct (String.eqb _ "yfinance").
    + exists []. split; [by rewrite app_nil_r|cbn; lia].
    + eexists [_]. split; [reflexivity|cbn; lia].
  - reflexivity.
  - reflexivity.
  - intros tf s pend. eexists. split; reflexivity.
  - intros pf s pend. eexists. split; reflexivity.
  - intros pf s pend. eexists. split; reflexivity.
  - intros c Hc before f after Hin o.
    apply reachable_known in Hc. rewrite Hin in Hc.
    apply Forall_app in Hc as [_ Hc].
    apply Forall_cons in Hc as [Hf _].
    rewrite launch_inflight, synchronous_pendingOf; [by rewrite app_nil_r|].
    by apply known_synchronous.
  - intros c c' Hstep.
    destruct Hstep as [e c|e c _|symbol c _|c|c|c|c before f after o Hin].
    + left. by exists e.
    + right; left. by exists e.
    + do 2 right; left. by exists symbol.
    + do 3 right; left. reflexivity.
    + do 4 right; left. reflexivity.
    + do 5 right; left. reflexivity.
    + do 6 right. by exists before, f, after, o.
Qed.

(** X17: a response changes only what its handler owns: no response
    changes the train form (so none restarts the symbols effect); only the
    answer to a train request changes the predict form or the train
    result, and only the answer to a symbols request changes the symbols
    list. *)
Theorem response_owns (c : Config) :
  reachable c ->
  forall (i : nat) (f : InFlight),
    inflight c !! i = Some f ->
    forall o (s : State) (pend : list InFlight),
      let after := ui (launch (resume f o) s pend) in
      trainForm after = trainForm s /\
      (endpoint (request f) <> (POST, "/api/train") ->
       predictForm after = predictForm s /\ trainResult after = trainResult s) /\
      (endpoint (request f) <> (GET, "/api/symbols") ->
       symbols after = symbols s).
Proof.
  intros Hc i f Hi o s pend.
  apply reachable_known in Hc.
  pose proof (Forall_lookup_1 _ _ _ _ Hc Hi) as Hf.
  known_cases Hf; destruct o; cbn; repeat split; try done;
    intros Hne; by destruct Hne.
Qed.

(** X18: an answer is applied even when it is stale: the symbols fetch
    started at mount can be answered after the user has switched to
    yfinance, and then the page lists that answer's symbols under the
    yfinance source with nothing left in flight. *)
Theorem stale_symbols_response (l : list string) :
  exists c : Config,
    reachable c /\
    TrainForm.data_source (trainForm (ui c)) = "yfinance" /\
    symbols (ui c) = l /\
    inflight c = [].
Proof.
  eexists. split.
  - eapply reachable_step.
    + eapply reachable_step; [apply reachable_mount|].
      apply (step_editTrain (TrainDataSource "yfinance")).
    + eapply (step_response _ [] _ []). reflexivity.
  - instantiate (1 := inr (SymbolsResponse.mk (Some l))).
    repeat split.
Qed.

Lemma errorText_not_empty (err : Error) (fallback : string) :
  fallback <> "" -> errorText err fallback <> "".
Proof.
  intros Hfb. unfold errorText, or_else at 1, truthy.
  destruct (String.eqb_spec (or_else (detail err) (message err)) "");
    cbn; done.
Qed.

(** X19: for a rejection as the model has it (a detail that is a string or
    is missing, and a message), a failed train, predict or history request
    never leaves the error message empty: when the detail and the message
    are both empty the handler's fallback text is stored.  This holds of
    the handler run in one piece and of the rejection applied in any later
    state. *)
Theorem failure_text_not_empty (err : Error) :
  (forall (srv : Server) (s : State),
     (forall tf : TrainForm.t,
        srv (trainRequest tf) = inl err ->
        error (Run.final (run srv (onTrainSubmit tf) s)) <> "") /\
     (forall pf : PredictForm.t,
        srv (predictRequest pf) = inl err ->
        error (Run.final (run srv (onPredictSubmit pf) s)) <> "") /\
     (forall pf : PredictForm.t,
        srv (historyRequest pf) = inl err ->
        error (Run.final (run srv (onLoadHistory pf) s)) <> "")) /\
  (forall (tf : TrainForm.t) (f : InFlight),
     pendingOf (onTrainSubmit tf) !! 0 = Some f ->
     forall (s' : State) (pend : list InFlight),
       error (ui (launch (resume f (inl err)) s' pend)) <> "") /\
  (forall (pf : PredictForm.t) (f : InFlight),
     pendingOf (onPredictSubmit pf) !! 0 = Some f ->
     forall (s' : State) (pend : list InFlight),
       error (ui (launch (resume f (inl err)) s' pend)) <> "") /\
  (forall (pf : PredictForm.t) (f : InFlight),
     pendingOf (onLoadHistory pf) !! 0 = Some f ->
     forall (s' : State) (pend : list InFlight),
       error (ui (launch (resume f (inl err)) s' pend)) <> "").
Proof.
  split; [|split; [|split]].
  - intros srv s. split; [|split].
    + intros tf Hsrv. rewrite run_onTrainSubmit, Hsrv.
      by apply errorText_not_empty.
    + intros pf Hsrv. rewrite run_onPredictSubmit, Hsrv.
      by apply errorText_not_empty.
    + intros pf Hsrv. rewrite run_onLoadHistory, Hsrv.
      by apply errorText_not_empty.
  - intros tf f Hf s' pend. simplify_eq/=.
    apply (errorText_not_empty err "Training failed"). done.
  - intros pf f Hf s' pend. simplify_eq/=.
    apply (errorText_not_empty err "Prediction failed"). done.
  - intros pf f Hf s' pend. simplify_eq/=.
    apply (errorText_not_empty err "History fetch failed"). done.
Qed.

(** X20: what changes the error message.  A form edit (with the symbols
    fetch it may start), a quick-symbol click and the start of a symbols
    fetch leave it as it is; so does every answer to a symbols request and
    every successful answer.  A rejected train, predict or history request
    sets it to the text of that rejection with the handler's own fallback.
    (The start of a submit clears it, X13.) *)
Theorem error_provenance :
  (forall (e : TrainEdit) (c : Config),
     error (ui (changeTrainForm e c)) = error (ui c)) /\
  (forall (e : PredictEdit) (s : State) (pend : list InFlight),
     error (ui (launch (setPredictForm (editPredict e)) s pend)) = error s) /\
  (forall (symbol : string) (s : State) (pend : list InFlight),
     error (ui (launch (applySymbol symbol) s pend)) = error s) /\
  (forall (ds ld : string) (s : State) (pend : list InFlight),
     error (ui (launch (loadSymbols ds ld) s pend)) = error s) /\
  (forall c : Config,
     reachable c ->
     forall (i : nat) (f : InFlight),
       inflight c !! i = Some f ->
       forall o (s : State) (pend : list InFlight),
         let after := error (ui (launch (resume f o) s pend)) in
         (endpoint (request f) = (GET, "/api/symbols") -> after = error s) /\
         (forall data, o = inr data -> after = error s) /\
         (forall err : Error,
            o = inl err ->
            (endpoint (request f) = (POST, "/api/train") ->
             after = errorText err "Training failed") /\
            (endpoint (request f) = (POST, "/api/predict") ->
             after = errorText err "Prediction failed") /\
            (endpoint (request f) = (GET, "/api/history") ->
             after = errorText err "History fetch failed"))).
Proof.
  split; [|split; [|split; [|split]]].
  - intros e c. unfold changeTrainForm, symbolsEffect, loadSymbols.
    destruct (depsChanged _ _); [|reflexivity].
    by destruct (String.eqb _ "yfinance").
  - reflexivity.
  - reflexivity.
  - intros ds ld s pend. unfold loadSymbols.
    by destruct (String.eqb ds "yfinance").
  - intros c Hc i f Hi o s pend.
    apply reachable_known in Hc.
    pose proof (Forall_lookup_1 _ _ _ _ Hc Hi) as Hf.
    known_cases Hf; destruct o as [err0|data0]; cbn;
      repeat split; intros; by simplify_eq.
Qed.

End App.
(** * The statements at sample inputs *)

Lemma forecastRows_spec_witness :
  ForecastResult.forecast sampleForecast !! 1 = Some (Point.mk "2024-01-04" 99) /\
  PrimFloat.eqb (ForecastResult.last_close sampleForecast) 0 = false /\
  (exists row : TapeRow.t,
     forecastRows (Some sampleForecast) !! 1 = Some row /\
     TapeRow.step row = 2 /\
     TapeRow.date row = "2024-01-04" /\
     TapeRow.value row = 99%float /\
     TapeRow.delta row = (-1)%float /\
     TapeRow.pct row = (-1)%float) /\
  ForecastResult.forecast flatForecast !! 0 = Some (Point.mk "2024-01-03" 4) /\
  PrimFloat.eqb (ForecastResult.last_close flatForecast) 0 = true /\
  (exists row : TapeRow.t,
     forecastRows (Some flatForecast) !! 0 = Some row /\
     TapeRow.delta row = 4%float /\
     TapeRow.pct row = 0%float).
Proof.
  split; [reflexivity|]. split; [reflexivity|]. split.
  - destruct (proj2 (proj2 forecastRows_spec sampleForecast) 1 _ eq_refl)
      as (row & Hrow & Hstep & Hdate & Hvalue & Hdelta & Hpct & _).
    exists row. repeat split; try assumption.
    rewrite (Hpct eq_refl), Hdelta. reflexivity.
  - split; [reflexivity|]. split; [reflexivity|].
    destruct (proj2 (proj2 forecastRows_spec flatForecast) 0 _ eq_refl)
      as (row & Hrow & _ & _ & _ & Hdelta & _ & Hpct).
    exists row. repeat split; try assumption.
    exact (Hpct eq_refl).
Defined.

Lemma chartData_spec_witness :
  sampleHistory <> [] /\
  chartData None sampleHistory =
    [ChartPoint.mk "2024-01-01" (Some 98%float) None;
     ChartPoint.mk "2024-01-02" (Some 100%float) None].
Proof.
  split; [discriminate|].
  apply (proj1 (proj2 chartData_spec) sampleHistory). discriminate.
Defined.

Lemma api_endpoints_witness :
  exists f : InFlight,
    inflight mount !! 0 = Some f /\
    viaClient (request f) /\
    endpoint (request f) = (GET, "/api/symbols") /\
    endpoint (request f) ∈ endpoints.
Proof.
  eexists. split; [reflexivity|].
  destruct (proj2 (proj2 (proj2 (proj2
      (api_endpoints sampleStringToNumber sampleToUpperCase))))
    mount (reachable_mount _ _) 0 _ eq_refl) as [Hvia Hin].
  split; [exact Hvia|]. split; [reflexivity|exact Hin].
Defined.





Lemma payload_numbers_witness :
  TrainForm.local_data_dir initialTrain = "" /\
  TrainForm.local_data_dir typedTrain <> "" /\
  (exists payload : TrainPayload.t,
     Run.requests (run (rejecting sampleError)
                     (onTrainSubmit sampleStringToNumber initialTrain)
                     initialState) =
       [ mkRequest POST "/api/train" (TrainBody payload) TrainShape ] /\
     TrainPayload.input_len payload = 60%float /\
     TrainPayload.local_data_dir payload = None) /\
  (exists payload : TrainPayload.t,
     Run.requests (run (rejecting sampleError)
                     (onTrainSubmit sampleStringToNumber typedTrain)
                     initialState) =
       [ mkRequest POST "/api/train" (TrainBody payload) TrainShape ] /\
     TrainPayload.epochs payload = 50%float /\
     TrainPayload.local_data_dir payload = Some "backend/data") /\
  (exists payload : PredictPayload.t,
     Run.requests (run (rejecting sampleError)
                     (onPredictSubmit sampleStringToNumber typedPredict)
                     initialState) =
       [ mkRequest POST "/api/predict" (PredictBody payload) ForecastShape ] /\
     PredictPayload.horizon payload = 15%float /\
     PredictPayload.history_points payload = 120%float /\
     PredictPayload.local_data_dir payload = Some "backend/data") /\
  (exists payload : PredictPayload.t,
     Run.requests (run (rejecting sampleError)
                     (onPredictSubmit sampleStringToNumber initialPredict)
                     initialState) =
       [ mkRequest POST "/api/predict" (PredictBody payload) ForecastShape ] /\
     PredictPayload.local_data_dir payload = None).
Proof.
  pose proof (payload_numbers sampleStringToNumber
                (rejecting sampleError) initialState)
    as (Htrain & Hpredict & _).
  split; [reflexivity|]. split; [discriminate|].
  split; [|split; [|split]].
  - destruct (Htrain initialTrain)
      as (payload & Hreq & Hin & _ & _ & _ & _ & Hempty & _).
    exists payload. split; [exact Hreq|]. split; [exact Hin|].
    exact (Hempty eq_refl).
  - destruct (Htrain typedTrain)
      as (payload & Hreq & _ & _ & Hep & _ & _ & _ & Hpath).
    exists payload. split; [exact Hreq|]. split; [exact Hep|].
    apply Hpath. discriminate.
  - destruct (Hpredict typedPredict)
      as (payload & Hreq & Hhz & Hhp & _ & Hpath).
    exists payload. split; [exact Hreq|]. split; [exact Hhz|].
    split; [exact Hhp|]. apply Hpath. discriminate.
  - destruct (Hpredict initialPredict)
      as (payload & Hreq & _ & _ & Hempty & _).
    exists payload. split; [exact Hreq|]. exact (Hempty eq_refl).
Defined.



Lemma failure_leaves_results_witness :
  rejecting sampleError (trainRequest sampleStringToNumber typedTrain) =
    inl sampleError /\
  Run.final (run (rejecting sampleError)
               (onTrainSubmit sampleStringToNumber typedTrain) initialState) =
    mkState initialTrain initialPredict [] None None [] false false false false
      "Ticker not found" /\
  Run.final (run (rejecting sampleError)
               (onPredictSubmit sampleStringToNumber typedPredict) initialState) =
    mkState initialTrain initialPredict [] None None [] false false false false
      "Ticker not found" /\
  Run.final (run (rejecting sampleError)
               (onLoadHistory sampleStringToNumber typedPredict) initialState) =
    mkState initialTrain initialPredict [] None None [] false false false false
      "Ticker not found" /\
  (exists f : InFlight,
     pendingOf (onTrainSubmit sampleStringToNumber typedTrain) !! 0 = Some f /\
     launch (resume f (inl sampleError)) initialState [] =
       mkConfig
         (mkState initialTrain initialPredict [] None None [] false false
            false false "Ticker not found")
         []).
Proof.
  pose proof (failure_leaves_results sampleStringToNumber
                (rejecting sampleError) initialState sampleError)
    as (Htrain & Hpredict & Hhistory & Hlater & _).
  split; [reflexivity|].
  split; [exact (Htrain typedTrain eq_refl)|].
  split; [exact (Hpredict typedPredict eq_refl)|].
  split; [exact (Hhistory typedPredict eq_refl)|].
  eexists. split; [reflexivity|].
  exact (Hlater typedTrain _ eq_refl initialState []).
Defined.

Lemma train_success_copies_to_predict_form_witness :
  answering None None (trainRequest sampleStringToNumber typedTrain) =
    inr sampleTrainResult /\
  predictForm (Run.final (run (answering None None)
                 (onTrainSubmit sampleStringToNumber typedTrain) initialState)) =
    {| PredictForm.ticker := "TCS";
       PredictForm.horizon := FNum 10;
       PredictForm.history_points := FNum 90;
       PredictForm.data_source := "auto";
       PredictForm.local_data_dir := "backend/data" |} /\
  (exists f : InFlight,
     pendingOf (onTrainSubmit sampleStringToNumber initialTrain) !! 0 = Some f /\
     forall data,
       predictForm
         (ui (launch (resume f (inr data))
                (mkState typedTrain typedPredict [] None None [] true false
                   false false "")
                [])) =
       {| PredictForm.ticker := "RELIANCE";
          PredictForm.horizon := FNum 15;
          PredictForm.history_points := FStr "120";
          PredictForm.data_source := "local";
          PredictForm.local_data_dir := "" |}).
Proof.
  split; [reflexivity|].
  split.
  { exact (proj1 (train_success_copies_to_predict_form
                    sampleStringToNumber typedTrain)
             (answering None None) initialState sampleTrainResult eq_refl). }
  eexists. split; [reflexivity|].
  intros data.
  exact (proj2 (train_success_copies_to_predict_form
                  sampleStringToNumber initialTrain)
           _ eq_refl data _ _).
Defined.

Lemma projectedChangePct_spec_witness :
  projectedChangePct (Some sampleForecast) = Some (-1)%float /\
  TapeRow.pct <$> last (forecastRows (Some sampleForecast)) = Some (-1)%float /\
  PrimFloat.eqb (ForecastResult.last_close flatForecast) 0 = true /\
  projectedChangePct (Some flatForecast) = None.
Proof.
  split; [reflexivity|].
  split.
  { exact (proj2 (projectedChangePct_spec (Some sampleForecast)) _ eq_refl). }
  split; [reflexivity|].
  apply (proj1 (projectedChangePct_spec (Some flatForecast))).
  right. reflexivity.
Defined.

Lemma referenceArea_spans_forecast_witness :
  referenceArea (Some sampleForecast) [] =
    Some ("2024-01-03", Some "2024-01-04") /\
  exists (fr : ForecastResult.t) (first final : Point.t),
    Some sampleForecast = Some fr /\
    ForecastResult.forecast fr !! 0 = Some first /\
    last (ForecastResult.forecast fr) = Some final /\
    "2024-01-03" = Point.date first /\
    Some "2024-01-04" = Some (Point.date final) /\
    chartData (Some sampleForecast) [] !! length (ForecastResult.history fr) =
      Some (ChartPoint.mk (Point.date first) None (Some (Point.value first))).
Proof.
  split; [reflexivity|].
  exact (proj1 (referenceArea_spans_forecast (Some sampleForecast) [])
           "2024-01-03" (Some "2024-01-04") eq_refl).
Defined.

Lemma preset_highlight_witness :
  15%float ∈ horizonPresets /\
  30%float ∈ horizonPresets /\
  presetActive sampleStringToNumber
    (editPredict sampleToUpperCase (PredictPreset 15) typedPredict) 15 = true /\
  presetActive sampleStringToNumber
    (editPredict sampleToUpperCase (PredictPreset 15) typedPredict) 30 = false.
Proof.
  assert (H15 : 15%float ∈ horizonPresets)
    by (unfold horizonPresets; rewrite !elem_of_cons; auto).
  assert (H30 : 30%float ∈ horizonPresets)
    by (unfold horizonPresets; rewrite !elem_of_cons; auto).
  split; [exact H15|]. split; [exact H30|]. split.
  - apply (preset_highlight sampleStringToNumber sampleToUpperCase
             typedPredict 15 15 H15 H15). reflexivity.
  - reflexivity.
Defined.

Lemma symbols_effect_trigger_witness :
  TrainPeriod "1y" <> TrainDataSource "auto" /\
  inflight (changeTrainForm sampleToUpperCase (TrainPeriod "1y") mount) =
    inflight mount /\
  inflight (changeTrainForm sampleToUpperCase (TrainDataSource "local") mount) =
    inflight mount /\
  map request
    (inflight (changeTrainForm sampleToUpperCase (TrainDataSource "auto") mount)) =
    [symbolsRequest "local" ""; symbolsRequest "auto" ""].
Proof.
  pose proof (symbols_effect_trigger sampleToUpperCase (TrainPeriod "1y") mount)
    as (_ & _ & Hother & _).
  pose proof (symbols_effect_trigger sampleToUpperCase (TrainDataSource "local") mount)
    as (_ & _ & _ & Hsame).
  pose proof (symbols_effect_trigger sampleToUpperCase (TrainDataSource "auto") mount)
    as (_ & Hfetch & _).
  split; [discriminate|].
  split; [apply Hother; discriminate|].
  split; [exact (Hsame eq_refl)|].
  exact Hfetch.
Defined.

Lemma loading_flags_backed_witness :
  loadingSymbols (ui mount) = true /\
  awaiting (GET, "/api/symbols") mount.
Proof.
  split; [reflexivity|].
  exact (proj1 (proj2 (proj2 (proj2
    (loading_flags_backed sampleStringToNumber sampleToUpperCase mount
       (reachable_mount _ _))))) eq_refl).
Defined.

Lemma requests_never_cancelled_witness :
  (exists f : InFlight,
     inflight mount = ([] ++ f :: [])%list /\
     inflight (launch (resume f (inl sampleError)) (ui mount) ([] ++ [])%list) =
       ([] ++ [])%list) /\
  step sampleStringToNumber sampleToUpperCase mount
    (launch (onTrainSubmit sampleStringToNumber (trainForm (ui mount)))
       (ui mount) (inflight mount)) /\
  ((exists e,
      launch (onTrainSubmit sampleStringToNumber (trainForm (ui mount)))
        (ui mount) (inflight mount) = changeTrainForm sampleToUpperCase e mount) \/
   (exists e,
      launch (onTrainSubmit sampleStringToNumber (trainForm (ui mount)))
        (ui mount) (inflight mount) =
      launch (setPredictForm (editPredict sampleToUpperCase e))
        (ui mount) (inflight mount)) \/
   (exists symbol,
      launch (onTrainSubmit sampleStringToNumber (trainForm (ui mount)))
        (ui mount) (inflight mount) =
      launch (applySymbol symbol) (ui mount) (inflight mount)) \/
   launch (onTrainSubmit sampleStringToNumber (trainForm (ui mount)))
     (ui mount) (inflight mount) =
   launch (onTrainSubmit sampleStringToNumber (trainForm (ui mount)))
     (ui mount) (inflight mount) \/
   launch (onTrainSubmit sampleStringToNumber (trainForm (ui mount)))
     (ui mount) (inflight mount) =
   launch (onPredictSubmit sampleStringToNumber (predictForm (ui mount)))
     (ui mount) (inflight mount) \/
   launch (onTrainSubmit sampleStringToNumber (trainForm (ui mount)))
     (ui mount) (inflight mount) =
   launch (onLoadHistory sampleStringToNumber (predictForm (ui mount)))
     (ui mount) (inflight mount) \/
   (exists (before : list InFlight) (f : InFlight) (after : list InFlight) o,
      inflight mount = (before ++ f :: after)%list /\
      launch (onTrainSubmit sampleStringToNumber (trainForm (ui mount)))
        (ui mount) (inflight mount) =
      launch (resume f o) (ui mount) (before ++ after)%list)).
Proof.
  pose proof (requests_never_cancelled sampleStringToNumber sampleToUpperCase)
    as (_ & _ & _ & _ & _ & _ & Hresponse & Hkinds).
  split.
  { eexists. split; [reflexivity|].
    exact (Hresponse mount (reachable_mount _ _) [] _ [] eq_refl
             (inl sampleError)). }
  split; [apply step_trainSubmit|].
  apply Hkinds. apply step_trainSubmit.
Defined.

Lemma response_owns_witness :
  exists f : InFlight,
    inflight mount !! 0 = Some f /\
    forall o,
      trainForm (ui (launch (resume f o) initialState [])) = initialTrain /\
      predictForm (ui (launch (resume f o) initialState [])) = initialPredict.
Proof.
  eexists. split; [reflexivity|].
  intros o.
  destruct (response_owns sampleStringToNumber sampleToUpperCase mount
              (reachable_mount _ _) 0 _ eq_refl o initialState [])
    as (Htrain & Hpredict & _).
  split; [exact Htrain|].
  apply Hpredict. discriminate.
Defined.

Lemma predict_after_train_witness :
  answering None None (trainRequest sampleStringToNumber typedTrain) =
    inr sampleTrainResult /\
  exists payload : PredictPayload.t,
    Run.requests
      (run (rejecting sampleError)
         (onPredictSubmit sampleStringToNumber
            (predictForm
               (Run.final (run (answering None None)
                             (onTrainSubmit sampleStringToNumber typedTrain)
                             initialState))))
         (Run.final (run (answering None None)
                       (onTrainSubmit sampleStringToNumber typedTrain)
                       initialState))) =
      [ mkRequest POST "/api/predict" (PredictBody payload) ForecastShape ] /\
    PredictPayload.ticker payload = "TCS" /\
    PredictPayload.data_source payload = "auto" /\
    PredictPayload.local_data_dir payload = Some "backend/data" /\
    PredictPayload.horizon payload = 10%float.
Proof.
  split; [reflexivity|].
  destruct (predict_after_train sampleStringToNumber (answering None None)
              (rejecting sampleError) initialState typedTrain sampleTrainResult
              eq_refl)
    as [(payload & Hreq & Hticker & Hsource & Hdir & Hhorizon & _) _].
  exists payload. split; [exact Hreq|].
  split; [exact Hticker|]. split; [exact Hsource|].
  split; [exact Hdir|exact Hhorizon].
Defined.

Lemma submit_start_witness :
  "local" <> "yfinance" /\
  ui (launch (loadSymbols "local" "") initialState []) =
    mkState initialTrain initialPredict [] None None [] false false false true "" /\
  map request (inflight (launch (loadSymbols "local" "") initialState [])) =
    [symbolsRequest "local" ""].
Proof.
  split; [discriminate|].
  exact (proj2 (proj2 (proj2 (submit_start sampleStringToNumber initialState [])))
           "local" "" ltac:(discriminate)).
Defined.


Lemma failure_text_not_empty_witness :
  rejecting (mkError None "") (trainRequest sampleStringToNumber typedTrain) =
    inl (mkError None "") /\
  error (Run.final (run (rejecting (mkError None ""))
                      (onTrainSubmit sampleStringToNumber typedTrain)
                      initialState)) <> "" /\
  error (Run.final (run (rejecting (mkError None ""))
                      (onPredictSubmit sampleStringToNumber typedPredict)
                      initialState)) <> "" /\
  error (Run.final (run (rejecting (mkError None ""))
                      (onLoadHistory sampleStringToNumber typedPredict)
                      initialState)) <> "" /\
  (exists f : InFlight,
     pendingOf (onTrainSubmit sampleStringToNumber typedTrain) !! 0 = Some f /\
     error (ui (launch (resume f (inl (mkError None ""))) initialState [])) <> "").
Proof.
  pose proof (failure_text_not_empty sampleStringToNumber (mkError None ""))
    as (Hrun & Hlater & _).
  destruct (Hrun (rejecting (mkError None "")) initialState)
    as (Htrain & Hpredict & Hhistory).
  split; [reflexivity|].
  split; [exact (Htrain typedTrain eq_refl)|].
  split; [exact (Hpredict typedPredict eq_refl)|].
  split; [exact (Hhistory typedPredict eq_refl)|].
  eexists. split; [reflexivity|].
  exact (Hlater typedTrain _ eq_refl initialState []).
Defined.

Lemma error_provenance_witness :
  (exists f : InFlight,
     inflight mount !! 0 = Some f /\
     endpoint (request f) = (GET, "/api/symbols") /\
     error (ui (launch (resume f (inl sampleError))
                  (mkState initialTrain initialPredict [] None None []
                     false false false true "History fetch failed")
                  [])) = "History fetch failed") /\
  (exists f : InFlight,
     inflight (launch (onTrainSubmit sampleStringToNumber (trainForm (ui mount)))
                 (ui mount) (inflight mount)) !! 1 = Some f /\
     endpoint (request f) = (POST, "/api/train") /\
     error (ui (launch (resume f (inl sampleError)) initialState [])) =
       "Ticker not found").
Proof.
  pose proof (error_provenance sampleStringToNumber sampleToUpperCase)
    as (_ & _ & _ & _ & Hanswer).
  split.
  - eexists. split; [reflexivity|]. split; [reflexivity|].
    exact (proj1 (Hanswer mount (reachable_mount _ _) 0 _ eq_refl
                    (inl sampleError)
                    (mkState initialTrain initialPredict [] None None []
                       false false false true "History fetch failed")
                    [])
             eq_refl).
  - eexists. split; [reflexivity|]. split; [reflexivity|].
    assert (Hc : reachable sampleStringToNumber sampleToUpperCase
                   (launch (onTrainSubmit sampleStringToNumber
                              (trainForm (ui mount)))
                      (ui mount) (inflight mount))).
    { eapply reachable_step; [apply reachable_mount|apply step_trainSubmit]. }
    exact (proj1 (proj2 (proj2 (Hanswer _ Hc 1 _ eq_refl (inl sampleError)
                                  initialState []))
                   sampleError eq_refl)
             eq_refl).
Defined.
